(** * PivotExtractor: paginated hypercube extraction and record formatting

    A shallow embedding of [src/pivot-extractor.js]: the paging loop of
    [extractPivotData] with its inline fault handling, and the pure
    [formatPivotData].  The remote pivot object is an interface with three
    methods; every request the loop issues is recorded in a call log so
    that statements about which request was sent, and with which window,
    can be made about the model. *)

From Stdlib Require Import ZArith Lia.
From stdpp Require Import base numbers strings list gmap sorting.

Local Open Scope Z_scope.

(** ** Engine data, as the extractor reads it *)

(** One cell of a matrix row.  [qNum] is only ever copied by the code, so
    an integer payload stands for the JS number. *)
Record NxCell := { qText : string; qNum : Z; qState : string }.

Definition Row := list NxCell.

(** The window of one fetch request. *)
Record NxPage := { qTop : Z; qLeft : Z; qHeight : Z; qWidth : Z }.

(** One element of the array a fetch resolves to.  [qMatrix] is [None]
    when the property is missing; a present matrix may be empty, and an
    empty array is still truthy. *)
Record NxDataPage := { qMatrix : option (list Row) }.

(** What a fetch resolves to: [None] is a null or undefined response. *)
Definition PageData := option (list NxDataPage).

(** The [code] of a rejected request is a number (6001, 6002), a string
    (['LOCERR_GENERIC_ABORTED']) or missing. *)
Inductive ErrorCode :=
| CodeNumber (n : Z)
| CodeString (s : string)
| CodeUndefined.

Record JsError := {
  code : ErrorCode;
  parameter : option string;
  message : string
}.

(** Outcome of awaiting a promise. *)
Inductive Reply (A : Type) :=
| Resolved (a : A)
| Rejected (e : JsError).
Arguments Resolved {A} a.
Arguments Rejected {A} e.

Record NxInfo := { qFallbackTitle : string }.
Record Size := { qcx : Z; qcy : Z }.
Record HyperCube := {
  qDimensionInfo : list NxInfo;
  qMeasureInfo : list NxInfo;
  qSize : Size;
  qMode : string
}.
Record Layout := { qHyperCube : HyperCube }.

(** The pivot object handed to the extractor.  Each method takes the
    object's current state and gives the reply with the next state, so a
    remote that answers differently from call to call is covered. *)
Class PivotObject (R : Type) := {
  getLayout : R -> Reply Layout * R;
  getHyperCubePivotData : string -> list NxPage -> R -> Reply PageData * R;
  getHyperCubeData : string -> list NxPage -> R -> Reply PageData * R
}.

(** ** Options and results of [extractPivotData] *)

Record Options := {
  pageSize : Z;
  maxPages : Z;
  startRow : Z;
  startCol : Z;
  columnCount : option Z
}.

(** The defaults of the destructuring at the top of [extractPivotData]. *)
Definition default_options : Options :=
  {| pageSize := 1000; maxPages := 10; startRow := 0; startCol := 0;
     columnCount := None |}.

Module Meta.
Record t := {
  dimensions : list NxInfo;
  measures : list NxInfo;
  totalRows : Z;
  totalColumns : Z;
  extractedRows : Z;
  pageSize : Z;
  pagesProcessed : Z
}.

(** A property value of the metadata object. *)
Inductive value :=
| Number (n : Z)
| Infos (l : list NxInfo).

(** Reading a property of the metadata object literal by name; a name
    the literal does not define reads as undefined. *)
Definition get (key : string) (m : t) : option value :=
  if String.eqb key "dimensions" then Some (Infos (dimensions m))
  else if String.eqb key "measures" then Some (Infos (measures m))
  else if String.eqb key "totalRows" then Some (Number (totalRows m))
  else if String.eqb key "totalColumns" then Some (Number (totalColumns m))
  else if String.eqb key "extractedRows" then Some (Number (extractedRows m))
  else if String.eqb key "pageSize" then Some (Number (pageSize m))
  else if String.eqb key "pagesProcessed" then Some (Number (pagesProcessed m))
  else None.
End Meta.

Record ExtractedData := { data : list Row; metadata : Meta.t }.

(** ** The call log *)

Inductive Method := GetHyperCubePivotData | GetHyperCubeData.

(** Where in the loop body a request is issued: the fetch in the [try]
    block, the reduced-size retry, or the straight-table retry. *)
Inductive Site := Primary | ShrinkRetry | StraightRetry.

Record Call := { site : Site; method : Method; window : NxPage }.

(** ** Fault tests of the [catch] block *)

Definition code_is_number (e : JsError) (n : Z) : bool :=
  match code e with CodeNumber k => Z.eqb k n | _ => false end.

Definition code_is_string (e : JsError) (s : string) : bool :=
  match code e with CodeString k => String.eqb k s | _ => false end.

Definition parameter_is (e : JsError) (s : string) : bool :=
  match parameter e with Some p => String.eqb p s | None => false end.

Definition is_page_too_large (e : JsError) : bool :=
  code_is_number e 6001 || parameter_is e "Page(s) too large".

Definition is_not_pivot_mode (e : JsError) : bool :=
  code_is_number e 6002 || parameter_is e "Not in pivot mode".

Definition is_aborted (e : JsError) : bool :=
  code_is_string e "LOCERR_GENERIC_ABORTED".

(** [pageData && pageData.length > 0 && pageData[0].qMatrix]: the matrix
    the response carries, when that test passes. *)
Definition page_matrix (pageData : PageData) : option (list Row) :=
  match pageData with
  | Some (page :: _) => qMatrix page
  | _ => None
  end.

(** ** The paging loop *)

Record LoopState (R : Type) := {
  allData : list Row;
  currentRow : Z;
  pagesProcessed : Z;
  remote : R;
  calls : list Call
}.
Arguments allData {R} _.
Arguments currentRow {R} _.
Arguments pagesProcessed {R} _.
Arguments remote {R} _.
Arguments calls {R} _.

(** How one run of the loop body ends: at the next test of the loop
    condition, or at a [break]. *)
Inductive Flow (S : Type) :=
| Continue (s : S)
| Break (s : S).
Arguments Continue {S} s.
Arguments Break {S} s.

Definition flow_state {S : Type} (f : Flow S) : S :=
  match f with Continue s | Break s => s end.

(** What running the loop with a bound on its iterations gives: the
    state at loop exit, or the state reached when the bound ran out with
    the loop condition still true. *)
Inductive Run (S : Type) :=
| Finished (s : S)
| OutOfFuel (s : S).
Arguments Finished {S} s.
Arguments OutOfFuel {S} s.

Definition run_state {S : Type} (r : Run S) : S :=
  match r with Finished s | OutOfFuel s => s end.

Section Extraction.
Context {R : Type} {PO : PivotObject R}.

(** Issue one request through the named method. *)
Definition invoke (m : Method) (w : NxPage) (r : R) : Reply PageData * R :=
  match m with
  | GetHyperCubePivotData => getHyperCubePivotData "/qHyperCubeDef" [w] r
  | GetHyperCubeData => getHyperCubeData "/qHyperCubeDef" [w] r
  end.

Variable hypercube : HyperCube.
Variable options : Options.

Definition totalRows : Z := qcy (qSize hypercube).

(** [columnCount || hypercube.qSize.qcx]: null and 0 are both falsy. *)
Definition totalCols : Z :=
  match columnCount options with
  | Some c => if Z.eqb c 0 then qcx (qSize hypercube) else c
  | None => qcx (qSize hypercube)
  end.

Definition loop_test (s : LoopState R) : bool :=
  Z.ltb (currentRow s) totalRows && Z.ltb (pagesProcessed s) (maxPages options).

Definition rowsToFetch (s : LoopState R) : Z :=
  Z.min (pageSize options) (totalRows - currentRow s).

Definition primary_method : Method :=
  if String.eqb (qMode hypercube) "EQ_DATA_MODE_PIVOT"
  then GetHyperCubePivotData else GetHyperCubeData.

Definition primary_window (s : LoopState R) : NxPage :=
  {| qTop := currentRow s; qLeft := startCol options;
     qHeight := rowsToFetch s; qWidth := totalCols |}.

Definition newPageSize (s : LoopState R) : Z :=
  Z.max 10 (rowsToFetch s / 2).

Definition shrink_window (s : LoopState R) : NxPage :=
  {| qTop := currentRow s; qLeft := startCol options;
     qHeight := newPageSize s; qWidth := totalCols |}.

(** One run of the loop body, from the state at the top of the loop. *)
Definition loop_body (s : LoopState R) : Flow (LoopState R) :=
  let '(reply, r1) := invoke primary_method (primary_window s) (remote s) in
  let log1 := calls s ++ [{| site := Primary; method := primary_method;
                             window := primary_window s |}] in
  match reply with
  | Resolved pageData =>
      match page_matrix pageData with
      | Some matrixData =>
          Continue {| allData := allData s ++ matrixData;
                      currentRow := currentRow s + rowsToFetch s;
                      pagesProcessed := pagesProcessed s + 1;
                      remote := r1; calls := log1 |}
      | None =>
          Break {| allData := allData s; currentRow := currentRow s;
                   pagesProcessed := pagesProcessed s;
                   remote := r1; calls := log1 |}
      end
  | Rejected pageError =>
      if is_page_too_large pageError then
        let '(retry, r2) := invoke GetHyperCubeData (shrink_window s) r1 in
        let log2 := log1 ++ [{| site := ShrinkRetry; method := GetHyperCubeData;
                                window := shrink_window s |}] in
        match retry with
        | Resolved pageData =>
            match page_matrix pageData with
            | Some matrixData =>
                Continue {| allData := allData s ++ matrixData;
                            currentRow := currentRow s + Z.of_nat (length matrixData);
                            pagesProcessed := pagesProcessed s + 1;
                            remote := r2; calls := log2 |}
            | None =>
                (* the [if] is skipped and the [catch] block ends *)
                Continue {| allData := allData s; currentRow := currentRow s;
                            pagesProcessed := pagesProcessed s;
                            remote := r2; calls := log2 |}
            end
        | Rejected retryError =>
            Break {| allData := allData s; currentRow := currentRow s;
                     pagesProcessed := pagesProcessed s;
                     remote := r2; calls := log2 |}
        end
      else if is_not_pivot_mode pageError then
        let '(retry, r2) := invoke GetHyperCubeData (primary_window s) r1 in
        let log2 := log1 ++ [{| site := StraightRetry; method := GetHyperCubeData;
                                window := primary_window s |}] in
        match retry with
        | Resolved pageData =>
            match page_matrix pageData with
            | Some matrixData =>
                Continue {| allData := allData s ++ matrixData;
                            currentRow := currentRow s + rowsToFetch s;
                            pagesProcessed := pagesProcessed s + 1;
                            remote := r2; calls := log2 |}
            | None =>
                Continue {| allData := allData s; currentRow := currentRow s;
                            pagesProcessed := pagesProcessed s;
                            remote := r2; calls := log2 |}
            end
        | Rejected straightError =>
            Break {| allData := allData s; currentRow := currentRow s;
                     pagesProcessed := pagesProcessed s;
                     remote := r2; calls := log2 |}
        end
      else if is_aborted pageError then
        Continue {| allData := allData s; currentRow := currentRow s;
                    pagesProcessed := pagesProcessed s;
                    remote := r1; calls := log1 |}
      else
        Break {| allData := allData s; currentRow := currentRow s;
                 pagesProcessed := pagesProcessed s;
                 remote := r1; calls := log1 |}
  end.

(** The [while] loop, with a bound on the number of iterations. *)
Fixpoint while (fuel : nat) (s : LoopState R) : Run (LoopState R) :=
  if loop_test s then
    match fuel with
    | O => OutOfFuel s
    | S fuel' =>
        match loop_body s with
        | Continue s' => while fuel' s'
        | Break s' => Finished s'
        end
    end
  else Finished s.

(** The object returned after the loop. *)
Definition build_result (s : LoopState R) : ExtractedData :=
  {| data := allData s;
     metadata :=
       {| Meta.dimensions := qDimensionInfo hypercube;
          Meta.measures := qMeasureInfo hypercube;
          Meta.totalRows := totalRows;
          Meta.totalColumns := totalCols;
          Meta.extractedRows := Z.of_nat (length (allData s));
          Meta.pageSize := pageSize options;
          Meta.pagesProcessed := pagesProcessed s |} |}.

Definition initial_state (r : R) : LoopState R :=
  {| allData := []; currentRow := startRow options; pagesProcessed := 0;
     remote := r; calls := [] |}.

(** The log entry of the fetch in the [try] block. *)
Definition primary_call (s : LoopState R) : Call :=
  {| site := Primary; method := primary_method;
     window := primary_window s |}.

Definition shrink_call (s : LoopState R) : Call :=
  {| site := ShrinkRetry; method := GetHyperCubeData;
     window := shrink_window s |}.

Definition straight_call (s : LoopState R) : Call :=
  {| site := StraightRetry; method := GetHyperCubeData;
     window := primary_window s |}.

(** The state with which the loop body ends when it neither assembles
    rows nor moves the cursor. *)
Definition unchanged (s : LoopState R) (r : R) (log : list Call) : LoopState R :=
  {| allData := allData s; currentRow := currentRow s;
     pagesProcessed := pagesProcessed s; remote := r; calls := log |}.

End Extraction.

(** What a call of [extractPivotData] comes to: it returns the result
    object, it rethrows the error of [getLayout], or (in the model only)
    the iteration bound ran out inside the loop. *)
Inductive Outcome (R : Type) :=
| Returned (result : ExtractedData) (r : R) (log : list Call)
| Threw (e : JsError) (r : R)
| Unfinished (s : LoopState R).
Arguments Returned {R} result r log.
Arguments Threw {R} e r.
Arguments Unfinished {R} s.

Definition extractPivotData {R : Type} `{PivotObject R}
    (fuel : nat) (pivotObject : R) (options : Options) : Outcome R :=
  match getLayout pivotObject with
  | (Rejected error, r0) => Threw error r0
  | (Resolved layout, r0) =>
      let hypercube := qHyperCube layout in
      match while hypercube options fuel (initial_state options r0) with
      | Finished s => Returned (build_result hypercube options s) (remote s) (calls s)
      | OutOfFuel s => Unfinished s
      end
  end.

(** The requests issued by a call, finished or not. *)
Definition issued {R : Type} (o : Outcome R) : list Call :=
  match o with
  | Returned _ _ log => log
  | Threw _ _ => []
  | Unfinished s => calls s
  end.

(** ** [formatPivotData] *)

Record Header := { name : string; type : string; index : nat }.

Record CellView := { text : string; number : Z; state : string }.

Record FormattedRow := { row_index : nat; row_data : gmap string CellView }.

Module Summary.
Record t := {
  totalRows : nat;
  totalColumns : nat;
  dimensions : nat;
  measures : nat
}.
End Summary.

Record FormattedData := {
  headers : list Header;
  rows : list FormattedRow;
  formatted_metadata : Meta.t;
  summary : Summary.t
}.

(** [infos.forEach(info => headers.push({name, type, index: headers.length}))] *)
Definition push_headers (ty : string) (infos : list NxInfo) (hs : list Header)
    : list Header :=
  fold_left
    (fun hs info =>
       hs ++ [{| name := qFallbackTitle info; type := ty; index := length hs |}])
    infos hs.

(** [row.forEach((cell, cellIndex) => ...)]: a cell past the last header is
    dropped; a later cell under the same header name overwrites. *)
Definition format_row (hs : list Header) (row : Row) : gmap string CellView :=
  fold_left
    (fun formattedRow '(cellIndex, cell) =>
       match hs !! cellIndex with
       | Some header =>
           <[name header := {| text := qText cell; number := qNum cell;
                               state := qState cell |}]> formattedRow
       | None => formattedRow
       end)
    (zip (seq 0 (length row)) row) ∅.

Definition formatPivotData (extractedData : ExtractedData) : FormattedData :=
  let metadata := metadata extractedData in
  let hs := push_headers "measure" (Meta.measures metadata)
              (push_headers "dimension" (Meta.dimensions metadata) []) in
  let formattedRows :=
    imap (fun rowIndex row =>
            {| row_index := rowIndex; row_data := format_row hs row |})
         (data extractedData) in
  {| headers := hs;
     rows := formattedRows;
     formatted_metadata := metadata;
     summary :=
       {| Summary.totalRows := length formattedRows;
          Summary.totalColumns := length hs;
          Summary.dimensions := length (Meta.dimensions metadata);
          Summary.measures := length (Meta.measures metadata) |} |}.

(** The header a descriptor gets at position [i]. *)
Definition header_at (ty : string) (i : nat) (info : NxInfo) : Header :=
  {| name := qFallbackTitle info; type := ty; index := i |}.

(** ** Scripted pivot objects

    A remote whose answer to its n-th request is given by a function of
    n, the method and the window. *)

Record Scripted := {
  scripted_layout : Layout;
  answer : nat -> Method -> NxPage -> Reply PageData;
  served : nat
}.

Definition scripted_fetch (m : Method) (ws : list NxPage) (r : Scripted)
    : Reply PageData * Scripted :=
  let w := match ws with
           | w :: _ => w
           | [] => {| qTop := 0; qLeft := 0; qHeight := 0; qWidth := 0 |}
           end in
  (answer r (served r) m w,
   {| scripted_layout := scripted_layout r; answer := answer r;
      served := S (served r) |}).

#[export] Instance scripted_pivot_object : PivotObject Scripted := {
  getLayout r := (Resolved (scripted_layout r), r);
  getHyperCubePivotData _ ws r := scripted_fetch GetHyperCubePivotData ws r;
  getHyperCubeData _ ws r := scripted_fetch GetHyperCubeData ws r
}.

(** Row [i] of a one-column table, recognisable by its number. *)
Definition table_row (i : Z) : Row :=
  [{| qText := "row"; qNum := i; qState := "O" |}].

(** The rows of the window, at most [cap] of them. *)
Definition slice (cap : Z) (w : NxPage) : PageData :=
  Some [{| qMatrix :=
             Some (map table_row
                     (seqZ (qTop w) (Z.min cap (qHeight w)))) |}].

Definition fault (c : ErrorCode) : JsError :=
  {| code := c; parameter := None; message := "fault" |}.

Definition cube (n : Z) (mode : string) : Layout :=
  {| qHyperCube :=
       {| qDimensionInfo := [{| qFallbackTitle := "Plant" |}];
          qMeasureInfo := [];
          qSize := {| qcx := 1; qcy := n |};
          qMode := mode |} |}.

Definition scripted (l : Layout) (f : nat -> Method -> NxPage -> Reply PageData)
    : Scripted :=
  {| scripted_layout := l; answer := f; served := 0 |}.

Definition with_page_size (ps mp : Z) : Options :=
  {| pageSize := ps; maxPages := mp; startRow := 0; startCol := 0;
     columnCount := None |}.


(** The remote state a call leaves behind. *)
Definition remote_after {R : Type} (o : Outcome R) : R :=
  match o with
  | Returned _ r _ => r
  | Threw _ r => r
  | Unfinished s => remote s
  end.

(** A table of [n] rows served in full, whatever the method. *)
Definition exact_table (n : Z) (mode : string) : Scripted :=
  scripted (cube n mode) (fun _ _ w => Resolved (slice (qHeight w) w)).

(** A ten-row table whose server returns at most three rows per request. *)
Definition truncating_table : Scripted :=
  scripted (cube 10 "EQ_DATA_MODE_PIVOT") (fun _ _ w => Resolved (slice 3 w)).


(** The first request is rejected as too large; the rest are served. *)
Definition too_large_once : Scripted :=
  scripted (cube 1000 "EQ_DATA_MODE_PIVOT")
    (fun n _ w =>
       match n with
       | O => Rejected (fault (CodeNumber 6001))
       | _ => Resolved (slice (qHeight w) w)
       end).

(** A two-row cube declared as pivot whose pivot call is always rejected
    with the mode fault while the straight call is served. *)
Definition straight_only : Scripted :=
  scripted (cube 2 "EQ_DATA_MODE_PIVOT")
    (fun _ m w =>
       match m with
       | GetHyperCubePivotData => Rejected (fault (CodeNumber 6002))
       | GetHyperCubeData => Resolved (slice (qHeight w) w)
       end).

(** Every request is rejected with the mode fault. *)
Definition always_mismatch (mode : string) : Scripted :=
  scripted (cube 10 mode) (fun _ _ _ => Rejected (fault (CodeNumber 6002))).

(** The first reply carries a matrix with no rows; the rest are served. *)
Definition empty_matrix_first : Scripted :=
  scripted (cube 2 "EQ_DATA_MODE_PIVOT")
    (fun n _ w =>
       match n with
       | O => Resolved (Some [{| qMatrix := Some [] |}])
       | _ => Resolved (slice (qHeight w) w)
       end).

(** Two pages are served, the third reply is [null]. *)
Definition null_on_third : Scripted :=
  scripted (cube 10 "EQ_DATA_MODE_PIVOT")
    (fun n _ w =>
       match n with
       | 0%nat | 1%nat => Resolved (slice (qHeight w) w)
       | _ => Resolved None
       end).

(** Two pages are served, the third request fails with an error that
    carries no code and no parameter. *)
Definition fatal_on_third : Scripted :=
  scripted (cube 10 "EQ_DATA_MODE_PIVOT")
    (fun n _ w =>
       match n with
       | 0%nat | 1%nat => Resolved (slice (qHeight w) w)
       | _ => Rejected (fault CodeUndefined)
       end).

(** ** Vocabulary of the statements *)

(** [ceil (a / b)] for positive [b]. *)
Definition ceil_div (a b : Z) : Z := (a + b - 1) / b.

(** The reply resolves with a matrix of exactly [k] rows. *)
Definition serves_rows {R : Type} (reply : Reply PageData * R) (k : Z) : Prop :=
  exists pageData r rows,
    reply = (Resolved pageData, r) /\
    page_matrix pageData = Some rows /\
    Z.of_nat (length rows) = k.

Definition is_primary (c : Call) : bool :=
  match site c with Primary => true | _ => false end.

(** The number of loop iterations a log stands for: each iteration issues
    one request from the [try] block. *)
Definition attempts (log : list Call) : nat :=
  length (List.filter is_primary log).

(** The height a request of the log must have if the page size in force
    is still the configured one: [min pageSize (totalRows - top)] for the
    fetch of a page and for its straight-table retry, and
    [max 10 (floor (that / 2))] for the reduced retry. *)
Definition height_from_page_size (hc : HyperCube) (o : Options) (c : Call) : Prop :=
  let full := Z.min (pageSize o) (totalRows hc - qTop (window c)) in
  match site c with
  | Primary | StraightRetry => qHeight (window c) = full
  | ShrinkRetry => qHeight (window c) = Z.max 10 (full / 2)
  end.

(** A table of [n] rows served in full and clipped at its last row. *)
Definition clipped_table (n : Z) (mode : string) : Scripted :=
  scripted (cube n mode) (fun _ _ w => Resolved (slice (n - qTop w) w)).

(** The rows a call has assembled, returned or not. *)
Definition assembled {R : Type} (o : Outcome R) : list Row :=
  match o with
  | Returned result _ _ => data result
  | Threw _ _ => []
  | Unfinished s => allData s
  end.

(** The rows assembled so far are the rows of the table [row_at] from
    [startRow] up to the cursor, each once and in order, and the remote
    is in one of the states [honest]. *)
Definition in_row_order {R : Type} (o : Options) (row_at : Z -> Row)
    (honest : R -> Prop) (s : LoopState R) : Prop :=
  honest (remote s) /\
  startRow o <= currentRow s /\
  allData s = map row_at (seqZ (startRow o) (currentRow s - startRow o)).


(** ** Further vocabulary for [extractPivotData] *)

(** The shape every request of an extraction has: the configured left
    column and width, a top row inside the cube, and a height that, for
    the fetch of a page and its straight-table retry, is at least one
    row, at most a page, and ends inside the cube; the reduced retry asks
    for at least ten rows. *)
Definition request_in_range (hc : HyperCube) (o : Options) (c : Call) : Prop :=
  qLeft (window c) = startCol o /\
  qWidth (window c) = totalCols hc o /\
  startRow o <= qTop (window c) < totalRows hc /\
  match site c with
  | Primary | StraightRetry =>
      1 <= qHeight (window c) <= pageSize o /\
      qTop (window c) + qHeight (window c) <= totalRows hc
  | ShrinkRetry => 10 <= qHeight (window c)
  end.

(** The windows the paging loop asks for in its [try] block: the
    configured left column and width, a top row from [startRow] on, at
    least one row and at most a page, and a last row inside the cube. *)
Definition page_window (hc : HyperCube) (o : Options) (w : NxPage) : Prop :=
  qLeft w = startCol o /\
  qWidth w = totalCols hc o /\
  startRow o <= qTop w /\
  1 <= qHeight w <= pageSize o /\
  qTop w + qHeight w <= totalRows hc.

(** The top rows of the requests of a log, in the order issued. *)
Definition tops (log : list Call) : list Z :=
  map (fun c => qTop (window c)) log.

(** The page count a call stands at, returned or not. *)
Definition pages_counted {R : Type} (o : Outcome R) : Z :=
  match o with
  | Returned result _ _ => Meta.pagesProcessed (metadata result)
  | Threw _ _ => 0
  | Unfinished s => pagesProcessed s
  end.

(** Invariants of the loop state: the page count is within the cap and
    not above the iterations made; every request so far is in range and
    the cursor has not gone below [startRow]; the tops of the requests so
    far ascend and none lies above the cursor. *)
Definition pages_bounded {R : Type} (o : Options) (s : LoopState R) : Prop :=
  0 <= pagesProcessed s <= Z.max 0 (maxPages o) /\
  pagesProcessed s <= Z.of_nat (attempts (calls s)).

Definition requests_in_range {R : Type} (hc : HyperCube) (o : Options)
    (s : LoopState R) : Prop :=
  Forall (request_in_range hc o) (calls s) /\ startRow o <= currentRow s.

Definition tops_ascending {R : Type} (s : LoopState R) : Prop :=
  StronglySorted Z.le (tops (calls s)) /\
  Forall (fun t => t <= currentRow s) (tops (calls s)).

(** ** Vocabulary for [formatPivotData] and [exportToCSV] *)

(** The field a cell becomes in a formatted row. *)
Definition cell_view (cell : NxCell) : CellView :=
  {| text := qText cell; number := qNum cell; state := qState cell |}.

(** The cells of a row that stand under a header named [k]; headers and
    cells are paired by position, up to the shorter of the two. *)
Definition cells_under (hs : list Header) (row : Row) (k : string) : list NxCell :=
  omap (fun '(h, cell) => if String.eqb (name h) k then Some cell else None)
       (zip hs row).

(** The column titles of an extraction result: dimensions, then measures. *)
Definition titles (e : ExtractedData) : list string :=
  map qFallbackTitle (Meta.dimensions (metadata e) ++ Meta.measures (metadata e)).

(** Assigning to the property [__proto__] of an object literal sets its
    prototype and creates no field, which the finite map of a formatted
    row does not show; statements about fields exclude that name. *)
Definition proto_key : string := "__proto__".

(** *** [exportToCSV] *)

Definition double_quote : string := String (Ascii.ascii_of_nat 34) EmptyString.
Definition line_feed : string := String (Ascii.ascii_of_nat 10) EmptyString.

(** The template literal that wraps a text in double quotes. *)
Definition quoted (s : string) : string :=
  String.append double_quote (String.append s double_quote).

(** The property names every object literal inherits from
    [Object.prototype]; reading one of them from a formatted row that
    has no field of that name gives an object or a function, not
    [undefined]. *)
Definition object_prototype_properties : list string :=
  ["constructor"; "__defineGetter__"; "__defineSetter__"; "hasOwnProperty";
   "__lookupGetter__"; "__lookupSetter__"; "isPrototypeOf";
   "propertyIsEnumerable"; "toString"; "valueOf"; "__proto__";
   "toLocaleString"].

(** [cellData ? `"${cellData.text}"` : '""'] for [cellData =
    row.data[header.name]]: an inherited property is truthy and has no
    [text], which the template prints as [undefined]. *)
Definition csv_cell (rowData : gmap string CellView) (header : Header) : string :=
  match rowData !! name header with
  | Some cellData => quoted (text cellData)
  | None =>
      if bool_decide (name header ∈ object_prototype_properties)
      then quoted "undefined"
      else quoted EmptyString
  end.

Definition exportToCSV (formattedData : FormattedData) : string :=
  let csvHeaders := String.concat "," (map name (headers formattedData)) in
  let csvRows :=
    map (fun row =>
           String.concat ","
             (map (csv_cell (row_data row)) (headers formattedData)))
        (rows formattedData) in
  String.concat line_feed (csvHeaders :: csvRows).

(** The CSV field of column [i], titled [title], read off a raw row. *)
Definition raw_csv_field (row : Row) (i : nat) (title : string) : string :=
  match row !! i with
  | Some cell => quoted (qText cell)
  | None =>
      if bool_decide (title ∈ object_prototype_properties)
      then quoted "undefined"
      else quoted EmptyString
  end.

Definition raw_csv_line (ts : list string) (row : Row) : string :=
  String.concat "," (imap (raw_csv_field row) ts).

(** An extraction result with the columns Plant and Stock, a full row
    and a row that has no cell for Stock. *)
Definition two_column_result : ExtractedData :=
  {| data := [table_row 7 ++ table_row 8; table_row 9];
     metadata :=
       {| Meta.dimensions := [{| qFallbackTitle := "Plant" |}];
          Meta.measures := [{| qFallbackTitle := "Stock" |}];
          Meta.totalRows := 2; Meta.totalColumns := 2;
          Meta.extractedRows := 2; Meta.pageSize := 1000;
          Meta.pagesProcessed := 1 |} |}.


(** ** [extractPivotDataSimple]

    The simple method reads the layout itself, without the checks of
    [getPivotLayout], and it reads the data pages the hypercube of a
    layout may carry.  So the layout is taken here as [getLayout]
    resolves it: [qHyperCube] may be missing, and so may each property
    of the hypercube that one of the two methods reads. *)

Module Raw.
Record HyperCube := {
  qDimensionInfo : option (list NxInfo);
  qMeasureInfo : option (list NxInfo);
  qSize : option Size;
  qMode : option string;
  qDataPages : option (list NxDataPage)
}.
Record Layout := { qHyperCube : option HyperCube }.
End Raw.

Class PivotObjectWithPages (R : Type) := {
  getLayoutWithPages : R -> Reply Raw.Layout * R;
  fetchPivotData : string -> list NxPage -> R -> Reply PageData * R;
  fetchData : string -> list NxPage -> R -> Reply PageData * R
}.

(** The [TypeError] of reading [property] of [undefined].  It has no
    [code] and no [parameter]; the text is that of Node. *)
Definition type_error (property : string) : JsError :=
  {| code := CodeUndefined; parameter := None;
     message := "Cannot read properties of undefined (reading '" +:+ property +:+ "')" |}.

(** Lines 25 to 33 of [getPivotLayout]: the log lines read
    [hypercube.qDimensionInfo.length], [hypercube.qMeasureInfo.length],
    [hypercube.qSize.qcy] and [hypercube.qSize.qcx] in this order, and
    the first that is missing throws.  A missing [qMode] is logged as
    undefined; it is only ever compared with ['EQ_DATA_MODE_PIVOT'], so
    the empty string stands for it. *)
Definition read_layout (layout : Raw.Layout) : Reply Layout :=
  match Raw.qHyperCube layout with
  | None => Rejected (type_error "qDimensionInfo")
  | Some hypercube =>
      match Raw.qDimensionInfo hypercube with
      | None => Rejected (type_error "length")
      | Some dimensions =>
          match Raw.qMeasureInfo hypercube with
          | None => Rejected (type_error "length")
          | Some measures =>
              match Raw.qSize hypercube with
              | None => Rejected (type_error "qcy")
              | Some size =>
                  Resolved
                    {| qHyperCube :=
                         {| qDimensionInfo := dimensions;
                            qMeasureInfo := measures;
                            qSize := size;
                            qMode := default EmptyString (Raw.qMode hypercube) |} |}
              end
          end
      end
  end.

(** [getPivotLayout]: the layout, or what [getLayout] or the log lines
    threw, rethrown by the [catch]. *)
Definition getPivotLayout {R : Type} {POP : PivotObjectWithPages R} (r : R)
    : Reply Layout * R :=
  match getLayoutWithPages r with
  | (Resolved layout, r') => (read_layout layout, r')
  | (Rejected error, r') => (Rejected error, r')
  end.

(** The same object as the paged method sees it: its [getLayout] is the
    call of [getPivotLayout] at line 54. *)
#[export] Instance paged_view {R : Type} (POP : PivotObjectWithPages R)
    : PivotObject R := {
  getLayout := getPivotLayout;
  getHyperCubePivotData := fetchPivotData;
  getHyperCubeData := fetchData
}.

Module SimpleMeta.
Record t := {
  dimensions : option (list NxInfo);
  measures : option (list NxInfo);
  totalRows : Z;
  extractedRows : Z
}.
End SimpleMeta.

(** What the simple method comes to: the result built from the layout,
    or whatever the paged method it falls back on comes to. *)
Inductive SimpleOutcome (R : Type) :=
| FromLayout (data : list Row) (metadata : SimpleMeta.t) (r : R)
| Paged (o : Outcome R).
Arguments FromLayout {R} data metadata r.
Arguments Paged {R} o.

Definition extractPivotDataSimple {R : Type} {POP : PivotObjectWithPages R}
    (fuel : nat) (pivotObject : R) : SimpleOutcome R :=
  match getLayoutWithPages pivotObject with
  | (Resolved layout, r1) =>
      match Raw.qHyperCube layout with
      | Some hypercube =>
          match Raw.qDataPages hypercube with
          | Some (page :: pages) =>
              let allData := concat (omap qMatrix (page :: pages)) in
              FromLayout allData
                {| SimpleMeta.dimensions := Raw.qDimensionInfo hypercube;
                   SimpleMeta.measures := Raw.qMeasureInfo hypercube;
                   SimpleMeta.totalRows := Z.of_nat (length allData);
                   SimpleMeta.extractedRows := Z.of_nat (length allData) |}
                r1
          | _ =>
              (* the call in the [else] branch stands inside the [try] *)
              match extractPivotData fuel r1 default_options with
              | Threw error r2 => Paged (extractPivotData fuel r2 default_options)
              | out => Paged out
              end
          end
      | None =>
          (* [hypercube.qDataPages] at line 203 throws a [TypeError],
             which the [catch] answers with the paged method *)
          Paged (extractPivotData fuel r1 default_options)
      end
  | (Rejected error, r1) => Paged (extractPivotData fuel r1 default_options)
  end.

(** The request for the layout at state [r] gave nothing the paged
    method can use and left the object in state [r']: it was rejected,
    or it resolved with a layout that lacks [qHyperCube] or, in it,
    [qDimensionInfo], [qMeasureInfo] or [qSize]. *)
Definition layout_unusable {R : Type} {POP : PivotObjectWithPages R}
    (r r' : R) : Prop :=
  (exists error, getLayoutWithPages r = (Rejected error, r')) \/
  (exists layout thrown,
     getLayoutWithPages r = (Resolved layout, r') /\
     read_layout layout = Rejected thrown).

(** The layout of a complete hypercube, with the data pages given. *)
Definition with_pages (layout : Layout) (pages : option (list NxDataPage))
    : Raw.Layout :=
  let hypercube := qHyperCube layout in
  {| Raw.qHyperCube :=
       Some {| Raw.qDimensionInfo := Some (qDimensionInfo hypercube);
               Raw.qMeasureInfo := Some (qMeasureInfo hypercube);
               Raw.qSize := Some (qSize hypercube);
               Raw.qMode := Some (qMode hypercube);
               Raw.qDataPages := pages |} |}.

(** A scripted pivot object whose layout carries data pages. *)
Record ScriptedWithPages := {
  paged_script : Scripted;
  layout_pages : option (list NxDataPage);
  layout_faults : nat
}.

(** [getLayout] is rejected while [layout_faults] is positive. *)
Definition scripted_layout_with_pages (r : ScriptedWithPages)
    : Reply Raw.Layout * ScriptedWithPages :=
  match layout_faults r with
  | O =>
      (Resolved (with_pages (scripted_layout (paged_script r)) (layout_pages r)), r)
  | S n =>
      (Rejected (fault (CodeString "LOCERR_GENERIC_ABORTED")),
       {| paged_script := paged_script r; layout_pages := layout_pages r;
          layout_faults := n |})
  end.

Definition lift_fetch (m : Method) (ws : list NxPage) (r : ScriptedWithPages)
    : Reply PageData * ScriptedWithPages :=
  let '(reply, s) := scripted_fetch m ws (paged_script r) in
  (reply, {| paged_script := s; layout_pages := layout_pages r;
             layout_faults := layout_faults r |}).

#[export] Instance scripted_with_pages : PivotObjectWithPages ScriptedWithPages := {
  getLayoutWithPages := scripted_layout_with_pages;
  fetchPivotData _ ws r := lift_fetch GetHyperCubePivotData ws r;
  fetchData _ ws r := lift_fetch GetHyperCubeData ws r
}.

(** A pivot object whose layout has no [qHyperCube] the first
    [bare_layouts] times it is asked for. *)
Record ScriptedBare := {
  bare_layouts : nat;
  then_script : ScriptedWithPages
}.

#[export] Instance scripted_bare : PivotObjectWithPages ScriptedBare := {
  getLayoutWithPages r :=
    match bare_layouts r with
    | O =>
        let '(reply, s) := scripted_layout_with_pages (then_script r) in
        (reply, {| bare_layouts := O; then_script := s |})
    | S n =>
        (Resolved {| Raw.qHyperCube := None |},
         {| bare_layouts := n; then_script := then_script r |})
    end;
  fetchPivotData _ ws r :=
    let '(reply, s) := lift_fetch GetHyperCubePivotData ws (then_script r) in
    (reply, {| bare_layouts := bare_layouts r; then_script := s |});
  fetchData _ ws r :=
    let '(reply, s) := lift_fetch GetHyperCubeData ws (then_script r) in
    (reply, {| bare_layouts := bare_layouts r; then_script := s |})
}.


(** ** [validateConfiguration] of [src/index.js] *)

(** The configuration properties the validation reads.  Each is an
    environment variable, so a string or undefined; [authMethod] has a
    default. *)
Record Config := {
  appId : option string;
  authMethod : string;
  userDirectory : option string;
  userId : option string;
  apiKey : option string;
  jwtToken : option string;
  pivotObjectId : option string
}.

(** [config[key]] for the keys the validation asks for. *)
Definition config_property (config : Config) (key : string) : option string :=
  if String.eqb key "appId" then appId config
  else if String.eqb key "pivotObjectId" then pivotObjectId config
  else if String.eqb key "userDirectory" then userDirectory config
  else if String.eqb key "userId" then userId config
  else if String.eqb key "apiKey" then apiKey config
  else if String.eqb key "jwtToken" then jwtToken config
  else None.

(** Truthiness of a string or undefined. *)
Definition is_set (v : option string) : bool :=
  match v with
  | Some s => negb (String.eqb s EmptyString)
  | None => false
  end.

Definition required_keys (config : Config) : list string :=
  ["appId"; "pivotObjectId"] ++
  (if String.eqb (authMethod config) "certificates" then ["userDirectory"; "userId"]
   else if String.eqb (authMethod config) "apikey" then ["apiKey"]
   else if String.eqb (authMethod config) "jwt" then ["jwtToken"]
   else []).

(** [None] when the validation returns, [Some message] when it throws
    an [Error] with that message. *)
Definition validateConfiguration (config : Config) : option string :=
  let required := required_keys config in
  let missing :=
    List.filter (fun key => negb (is_set (config_property config key))) required in
  match missing with
  | [] => None
  | _ =>
      Some (String.append "Missing required configuration: "
              (String.concat ", " missing))
  end.


(** ** [ContainerExtractor.getAllChildObjects]

    The engine document as the container extractor uses it: objects are
    fetched by id and asked for their layout; every call may change the
    state of the engine. *)

(** [qInfo] of a layout or of a child item. *)
Record ChildInfo := { qId : string; qType : string }.

(** The layout of a container.  [qInfo] is [None] when the layout has
    no such property.  [qChildItems] is [None] when the layout has no
    [qChildList] or the list has no [qItems]; an item of the list is
    [None] when it has no [qInfo]. *)
Record ContainerLayout := {
  qInfo : option ChildInfo;
  qChildItems : option (list (option ChildInfo))
}.

Class Document (D Obj : Type) := {
  getObject : string -> D -> Reply Obj * D;
  getContainerLayout : Obj -> D -> Reply ContainerLayout * D
}.

(** An element of the array [getAllChildObjects] returns. *)
Record ChildObject (Obj : Type) := {
  child_id : string;
  child_type : string;
  child_object : Obj
}.
Arguments child_id {Obj} _.
Arguments child_type {Obj} _.
Arguments child_object {Obj} _.

(** What a function of the container extractor or of the selector ends
    with: a value, or something thrown: an [Error] made by the code, the [TypeError] of reading a
    property of [undefined], or the rejection of an engine call. *)
Inductive Thrown :=
| ErrorMessage (msg : string)
| TypeError
| EngineError (e : JsError).

Inductive Result (A : Type) :=
| Ok (a : A)
| Throws (t : Thrown).
Arguments Ok {A} a.
Arguments Throws {A} t.

Section Container.
Context {D Obj : Type} {DOC : Document D Obj}.

(** [analyzeContainer]: the layout, or what was thrown, rethrown by the
    [catch]: the rejection of [getLayout], or the [TypeError] of the log
    lines, which read [layout.qInfo.qType] (line 26) and, for every
    child item, [child.qInfo.qId] (line 34). *)
Definition analyzeContainer (container : Obj) (doc : D)
    : Result ContainerLayout * D :=
  match getContainerLayout container doc with
  | (Resolved layout, doc1) =>
      match qInfo layout with
      | None => (Throws TypeError, doc1)
      | Some _ =>
          match qChildItems layout with
          | Some items =>
              if forallb (fun child => bool_decide (is_Some child)) items
              then (Ok layout, doc1)
              else (Throws TypeError, doc1)
          | None => (Ok layout, doc1)
          end
      end
  | (Rejected error, doc1) => (Throws (EngineError error), doc1)
  end.

(** The [for ... of] loop over the child items: a child whose object
    cannot be fetched is logged and skipped.  For a child without
    [qInfo] the argument of [getObject] throws inside the inner [try],
    and so does the log line of its [catch], which leaves the loop. *)
Fixpoint retrieve_children (items : list (option ChildInfo))
    (childObjects : list (ChildObject Obj)) (doc : D)
    : Result (list (ChildObject Obj)) * D :=
  match items with
  | [] => (Ok childObjects, doc)
  | None :: rest => (Throws TypeError, doc)
  | Some child :: rest =>
      match getObject (qId child) doc with
      | (Resolved childObj, doc') =>
          retrieve_children rest
            (childObjects ++ [{| child_id := qId child; child_type := qType child;
                                 child_object := childObj |}])
            doc'
      | (Rejected error, doc') => retrieve_children rest childObjects doc'
      end
  end.

Definition getAllChildObjects (container : Obj) (doc : D)
    : Result (list (ChildObject Obj)) * D :=
  match analyzeContainer container doc with
  | (Ok layout, doc1) =>
      match qChildItems layout with
      | Some items => retrieve_children items [] doc1
      | None => (Ok [], doc1)
      end
  | (Throws thrown, doc1) => (Throws thrown, doc1)
  end.

(** Asking the document for each of the ids in turn, whatever it
    replies: the replies in the order asked, and the state after the
    last. *)
Fixpoint ask_each (ids : list string) (doc : D) : list (Reply Obj) * D :=
  match ids with
  | [] => ([], doc)
  | id :: rest =>
      let '(reply, doc') := getObject id doc in
      let '(replies, doc'') := ask_each rest doc' in
      (reply :: replies, doc'')
  end.

(** The element a child contributes to the result, given the reply to
    the request for its object. *)
Definition fetched (child : ChildInfo) (reply : Reply Obj) : option (ChildObject Obj) :=
  match reply with
  | Resolved childObj =>
      Some {| child_id := qId child; child_type := qType child;
              child_object := childObj |}
  | Rejected _ => None
  end.

End Container.

(** A document with one container whose children are listed, some of
    which cannot be fetched: the state counts the calls. *)
Record ListedDocument := {
  listed : list ChildInfo;
  unavailable : list string;
  requests : nat
}.

#[export] Instance listed_document : Document ListedDocument string := {
  getObject id doc :=
    (if bool_decide (id ∈ unavailable doc)
     then Rejected (fault (CodeNumber 2))
     else Resolved id,
     {| listed := listed doc; unavailable := unavailable doc;
        requests := S (requests doc) |});
  getContainerLayout _ doc :=
    (Resolved {| qInfo := Some {| qId := "container"; qType := "container" |};
                 qChildItems := Some (map Some (listed doc)) |},
     {| listed := listed doc; unavailable := unavailable doc;
        requests := S (requests doc) |})
}.


(** ** [FieldSelector]: finding and selecting a field value *)

Module ListObject.
(** A cell of a list object: its text and its element number. *)
Record cell := { qText : string; qElemNumber : Z }.

(** [layout.qListObject.qDataPages]: per page the rows of [qMatrix]. *)
Record layout := { qDataPages : list (list (list cell)) }.

(** The properties of the temporary list object of a field. *)
Record properties := {
  qType : string;
  qFieldDefs : list string;
  qInitialDataFetch : list NxPage
}.

(** The handle of a created object. *)
Record handle := { id : string }.
End ListObject.

(** The rows of one page: [Some] when the scan ends in this page, by a
    match or by a row without first cell, [None] when it goes on. *)
Fixpoint scan_rows (rows : list (list ListObject.cell)) (targetValue : string)
    : option (Result Z) :=
  match rows with
  | [] => None
  | row :: rest =>
      match row with
      | [] => Some (Throws TypeError)
      | cell :: _ =>
          if String.eqb (ListObject.qText cell) targetValue
          then Some (Ok (ListObject.qElemNumber cell))
          else scan_rows rest targetValue
      end
  end.

Definition not_found (targetValue : string) : Thrown :=
  ErrorMessage
    (String.append "Value "
       (String.append (quoted targetValue) " not found in field")).

(** The two nested loops of [findValueIndex] over the data pages. *)
Fixpoint scan_pages (dataPages : list (list (list ListObject.cell)))
    (targetValue : string) : Result Z :=
  match dataPages with
  | [] => Throws (not_found targetValue)
  | page :: rest =>
      match scan_rows page targetValue with
      | Some result => result
      | None => scan_pages rest targetValue
      end
  end.

(** The engine document as the selector uses it. *)
Class SelectionDocument (D : Type) := {
  createObject : ListObject.properties -> D -> Reply ListObject.handle * D;
  getListLayout : ListObject.handle -> D -> Reply ListObject.layout * D;
  selectListObjectValues :
    ListObject.handle -> string -> list Z -> bool -> D -> Reply bool * D;
  destroyObject : string -> D -> Reply bool * D
}.

(** The requests the selector sends, in order. *)
Inductive SelectorCall :=
| Created (properties : ListObject.properties)
| LayoutOf (listObject : ListObject.handle)
| Selected (listObject : ListObject.handle) (values : list Z)
| Destroyed (objectId : string).

Section Selector.
Context {D : Type} {SD : SelectionDocument D}.

Definition field_list_properties (fieldName : string) : ListObject.properties :=
  {| ListObject.qType := String.append "field-list-" fieldName;
     ListObject.qFieldDefs := [fieldName];
     ListObject.qInitialDataFetch :=
       [{| qTop := 0; qLeft := 0; qHeight := 1000; qWidth := 1 |}] |}.

Definition createFieldListObject (fieldName : string) (doc : D)
    : Reply ListObject.handle * D :=
  createObject (field_list_properties fieldName) doc.

Definition findValueIndex (listObject : ListObject.handle) (targetValue : string)
    (doc : D) : Result Z * D :=
  match getListLayout listObject doc with
  | (Resolved layout, doc') =>
      (scan_pages (ListObject.qDataPages layout) targetValue, doc')
  | (Rejected error, doc') => (Throws (EngineError error), doc')
  end.

(** [selectFieldValue]: every error is logged and rethrown. *)
Definition selectFieldValue (fieldName value : string) (doc : D)
    : Result bool * D * list SelectorCall :=
  let log0 := [Created (field_list_properties fieldName)] in
  match createFieldListObject fieldName doc with
  | (Rejected error, doc1) => (Throws (EngineError error), doc1, log0)
  | (Resolved listObject, doc1) =>
      let log1 := log0 ++ [LayoutOf listObject] in
      match findValueIndex listObject value doc1 with
      | (Throws error, doc2) => (Throws error, doc2, log1)
      | (Ok valueIndex, doc2) =>
          let log2 := log1 ++ [Selected listObject [valueIndex]] in
          match selectListObjectValues listObject "/qListObjectDef"
                  [valueIndex] false doc2 with
          | (Rejected error, doc3) => (Throws (EngineError error), doc3, log2)
          | (Resolved _, doc3) =>
              let log3 := log2 ++ [Destroyed (ListObject.id listObject)] in
              match destroyObject (ListObject.id listObject) doc3 with
              | (Rejected error, doc4) => (Throws (EngineError error), doc4, log3)
              | (Resolved _, doc4) => (Ok true, doc4, log3)
              end
          end
      end
  end.

End Selector.

Definition is_destroyed (c : SelectorCall) : bool :=
  match c with Destroyed _ => true | _ => false end.

(** A row of a list object whose first cell has the given text. *)
Definition starts_with (text : string) (row : list ListObject.cell) : Prop :=
  exists cell rest, row = cell :: rest /\ ListObject.qText cell = text.

Definition starts_otherwise (text : string) (row : list ListObject.cell) : Prop :=
  exists cell rest, row = cell :: rest /\ ListObject.qText cell <> text.

(** A document holding the values of one field; created objects get
    the ids [obj0], [obj1], ... and stay alive until destroyed. *)
Record FieldDocument := {
  field_values : list (list (list ListObject.cell));
  alive : list string;
  created : nat
}.

Definition object_name (n : nat) : string :=
  String.append "obj" (String (Ascii.ascii_of_nat (48 + n)) EmptyString).

#[export] Instance field_document : SelectionDocument FieldDocument := {
  createObject _ doc :=
    (Resolved {| ListObject.id := object_name (created doc) |},
     {| field_values := field_values doc;
        alive := object_name (created doc) :: alive doc;
        created := S (created doc) |});
  getListLayout _ doc :=
    (Resolved {| ListObject.qDataPages := field_values doc |}, doc);
  selectListObjectValues _ _ _ _ doc := (Resolved true, doc);
  destroyObject objectId doc :=
    (Resolved true,
     {| field_values := field_values doc;
        alive := List.filter (fun x => negb (String.eqb x objectId)) (alive doc);
        created := created doc |})
}.

Definition list_cell (text : string) (n : Z) : ListObject.cell :=
  {| ListObject.qText := text; ListObject.qElemNumber := n |}.

(** The field Plant with the values 1101, 1102 and 1103 on two pages;
    element numbers are not row positions. *)
Definition plant_document : FieldDocument :=
  {| field_values := [[[list_cell "1101" 7]; [list_cell "1102" 3]];
                      [[list_cell "1103" 5]]];
     alive := []; created := 0 |}.


(** ** The retry interceptor of [SessionManager.createSession] *)

(** [===] on error codes. *)
Definition code_eqb (a b : ErrorCode) : bool :=
  match a, b with
  | CodeNumber x, CodeNumber y => Z.eqb x y
  | CodeString x, CodeString y => String.eqb x y
  | CodeUndefined, CodeUndefined => true
  | _, _ => false
  end.

(** What the interceptor does with a rejection: have the request sent
    again, or pass the rejection on. *)
Inductive Decision :=
| Retry
| Reject (error : JsError).

Section Interceptor.

(** [schema.enums.LocalizedErrorCode.LOCERR_GENERIC_ABORTED]: the value
    comes from the schema file of enigma.js, which is not part of the
    repository. *)
Variable LOCERR_GENERIC_ABORTED : ErrorCode.

(** [request.tries] before and after, and the decision.  The counter is
    a property of the request and is undefined on a fresh request. *)
Definition retryAbortedError (tries : option Z) (error : JsError)
    : option Z * Decision :=
  if code_eqb (code error) LOCERR_GENERIC_ABORTED then
    let tries' :=
      match tries with
      | Some n => if Z.eqb n 0 then 0 else n
      | None => 0
      end + 1 in
    if Z.leb tries' 3 then (Some tries', Retry) else (Some tries', Reject error)
  else (tries, Reject error).

(** The interceptor over the successive rejections of one request: the
    number of retries it grants, and the rejection it passes on, if the
    rejections do not run out first. *)
Fixpoint handle_rejections (tries : option Z) (errors : list JsError)
    : nat * option JsError :=
  match errors with
  | [] => (O, None)
  | error :: later =>
      match retryAbortedError tries error with
      | (tries', Retry) =>
          let '(n, passed) := handle_rejections tries' later in (S n, passed)
      | (_, Reject e) => (O, Some e)
      end
  end.

End Interceptor.

(** ** The paging loop of the clean-pivot script *)

Record CleanState (R : Type) := {
  cleanData : list Row;
  currentPage : Z;
  cleanRemote : R;
  cleanLog : list NxPage
}.
Arguments cleanData {R} _.
Arguments currentPage {R} _.
Arguments cleanRemote {R} _.
Arguments cleanLog {R} _.

(** How the loop ends: at its exit, by the rejection of a request, which
    nothing in the loop catches, or (in the model only) at the bound on
    its iterations. *)
Inductive CleanRun (R : Type) :=
| CleanFinished (s : CleanState R)
| CleanThrown (error : JsError) (s : CleanState R)
| CleanOutOfFuel (s : CleanState R).
Arguments CleanFinished {R} s.
Arguments CleanThrown {R} error s.
Arguments CleanOutOfFuel {R} s.

Definition clean_state {R : Type} (run : CleanRun R) : CleanState R :=
  match run with
  | CleanFinished s | CleanThrown _ s | CleanOutOfFuel s => s
  end.

Section CleanPivot.
Context {R : Type} {PO : PivotObject R}.
Variable hypercube : HyperCube.

(** The window of page [k]: a hundred rows, fewer on the last page. *)
Definition clean_window (k : Z) : NxPage :=
  let startRow := k * 100 in
  let endRow := Z.min (startRow + 100 - 1) (totalRows hypercube - 1) in
  {| qTop := startRow; qLeft := 0;
     qHeight := endRow - startRow + 1; qWidth := qcx (qSize hypercube) |}.

Fixpoint clean_while (fuel : nat) (s : CleanState R) : CleanRun R :=
  if Z.ltb (currentPage s * 100) (totalRows hypercube) then
    match fuel with
    | O => CleanOutOfFuel s
    | S fuel' =>
        let w := clean_window (currentPage s) in
        match invoke GetHyperCubeData w (cleanRemote s) with
        | (Rejected error, r1) =>
            CleanThrown error
              {| cleanData := cleanData s; currentPage := currentPage s;
                 cleanRemote := r1; cleanLog := cleanLog s ++ [w] |}
        | (Resolved dataPages, r1) =>
            let s' :=
              {| cleanData :=
                   match page_matrix dataPages with
                   | Some matrix => cleanData s ++ matrix
                   | None => cleanData s
                   end;
                 currentPage := currentPage s + 1;
                 cleanRemote := r1; cleanLog := cleanLog s ++ [w] |} in
            if Z.ltb 100 (currentPage s') then CleanFinished s'
            else clean_while fuel' s'
        end
    end
  else CleanFinished s.

Definition clean_start (r : R) : CleanState R :=
  {| cleanData := []; currentPage := 0; cleanRemote := r; cleanLog := [] |}.

End CleanPivot.

(** The windows the loop of the script can ask for: all columns, a top
    row inside the cube, at least one row and at most a hundred, and a
    last row inside the cube. *)
Definition clean_page_window (hc : HyperCube) (w : NxPage) : Prop :=
  qLeft w = 0 /\
  qWidth w = qcx (qSize hc) /\
  0 <= qTop w /\
  1 <= qHeight w <= 100 /\
  qTop w + qHeight w <= totalRows hc.

(** The state at the top of the loop: the pages requested so far are
    the first [currentPage] windows. *)
Definition clean_progress {R : Type} (hc : HyperCube) (s : CleanState R) : Prop :=
  0 <= currentPage s /\
  cleanLog s = map (clean_window hc) (seqZ 0 (currentPage s)).

(** * Properties of [formatPivotData] *)

Lemma push_headers_imap (ty : string) (infos : list NxInfo) (hs : list Header) :
  push_headers ty infos hs =
  hs ++ imap (fun i info => {| name := qFallbackTitle info; type := ty;
                               index := (length hs + i)%nat |}) infos.
Proof.
  unfold push_headers. revert hs.
  induction infos as [|info infos IH]; intros hs; simpl.
  - by rewrite app_nil_r.
  - rewrite IH, <- app_assoc. simpl. f_equal.
    rewrite Nat.add_0_r. f_equal.
    apply imap_ext. intros i x _. simpl.
    rewrite length_app. simpl. f_equal. lia.
Qed.

Lemma formatPivotData_headers (e : ExtractedData) :
  headers (formatPivotData e) =
  imap (header_at "dimension") (Meta.dimensions (metadata e)) ++
  imap (fun j => header_at "measure" (length (Meta.dimensions (metadata e)) + j))
       (Meta.measures (metadata e)).
Proof.
  unfold formatPivotData. simpl.
  rewrite !push_headers_imap. simpl.
  rewrite length_imap. reflexivity.
Qed.

Lemma map_name_imap_header (ty : string) (f : nat -> nat) (l : list NxInfo) :
  map name (imap (fun i => header_at ty (f i)) l) = map qFallbackTitle l.
Proof.
  revert f. induction l as [|d l IH]; intros f; [done|].
  simpl. f_equal. apply (IH (f ∘ S)).
Qed.

Lemma map_type_imap_header (ty : string) (f : nat -> nat) (l : list NxInfo) :
  map type (imap (fun i => header_at ty (f i)) l) = replicate (length l) ty.
Proof.
  revert f. induction l as [|d l IH]; intros f; [done|].
  simpl. f_equal. apply (IH (f ∘ S)).
Qed.

(** C8: [formatPivotData] lists the dimension descriptors and then the
    measure descriptors, typed accordingly, every header carrying its own
    position as [index]; and [summary.totalColumns] is the number of
    headers, which is the number of dimension descriptors plus the number
    of measure descriptors. *)
Theorem formatPivotData_headers_consistent (e : ExtractedData) :
  let dims := Meta.dimensions (metadata e) in
  let meas := Meta.measures (metadata e) in
  let f := formatPivotData e in
  map name (headers f) = map qFallbackTitle dims ++ map qFallbackTitle meas /\
  map type (headers f) =
    replicate (length dims) "dimension" ++ replicate (length meas) "measure" /\
  (forall (i : nat) (h : Header), headers f !! i = Some h -> index h = i) /\
  Summary.totalColumns (summary f) = length (headers f) /\
  length (headers f) = (length dims + length meas)%nat.
Proof.
  intros dims meas f.
  assert (Hh := formatPivotData_headers e). fold dims meas f in Hh.
  split; [|split; [|split; [|split]]].
  - rewrite Hh, map_app. f_equal.
    + apply (map_name_imap_header "dimension" id).
    + apply (map_name_imap_header "measure" (fun j => (length dims + j)%nat)).
  - rewrite Hh, map_app. f_equal.
    + apply (map_type_imap_header "dimension" id).
    + apply (map_type_imap_header "measure" (fun j => (length dims + j)%nat)).
  - intros i h Hi. rewrite Hh in Hi.
    apply lookup_app_Some in Hi as [Hi | [Hge Hi]].
    + apply list_lookup_imap_Some in Hi as (x & _ & ->). reflexivity.
    + apply list_lookup_imap_Some in Hi as (x & _ & ->). simpl.
      rewrite length_imap in *. lia.
  - reflexivity.
  - rewrite Hh, length_app, !length_imap. reflexivity.
Qed.

(** * Properties of the paging loop *)

Section LoopFacts.
Context {R : Type} {PO : PivotObject R}.
Variable hc : HyperCube.
Variable o : Options.

Lemma build_result_unchanged (s : LoopState R) (r : R) (log : list Call) :
  build_result hc o (unchanged s r log) = build_result hc o s.
Proof. reflexivity. Qed.

(** *** The branches of the loop body *)

Lemma loop_body_page (s : LoopState R) pd r1 rows :
  invoke (primary_method hc) (primary_window hc o s) (remote s) = (Resolved pd, r1) ->
  page_matrix pd = Some rows ->
  loop_body hc o s =
    Continue {| allData := allData s ++ rows;
                currentRow := currentRow s + rowsToFetch hc o s;
                pagesProcessed := pagesProcessed s + 1;
                remote := r1; calls := calls s ++ [primary_call hc o s] |}.
Proof. intros Hf Hm. unfold loop_body. rewrite Hf, Hm. reflexivity. Qed.

Lemma loop_body_no_matrix (s : LoopState R) pd r1 :
  invoke (primary_method hc) (primary_window hc o s) (remote s) = (Resolved pd, r1) ->
  page_matrix pd = None ->
  loop_body hc o s = Break (unchanged s r1 (calls s ++ [primary_call hc o s])).
Proof. intros Hf Hm. unfold loop_body. rewrite Hf, Hm. reflexivity. Qed.

Lemma loop_body_fatal (s : LoopState R) e r1 :
  invoke (primary_method hc) (primary_window hc o s) (remote s) = (Rejected e, r1) ->
  is_page_too_large e = false ->
  is_not_pivot_mode e = false ->
  is_aborted e = false ->
  loop_body hc o s = Break (unchanged s r1 (calls s ++ [primary_call hc o s])).
Proof.
  intros Hf H1 H2 H3. unfold loop_body. rewrite Hf, H1, H2, H3. reflexivity.
Qed.


Lemma loop_body_too_large (s : LoopState R) e r1 :
  invoke (primary_method hc) (primary_window hc o s) (remote s) = (Rejected e, r1) ->
  is_page_too_large e = true ->
  calls (flow_state (loop_body hc o s)) =
    calls s ++ [primary_call hc o s; shrink_call hc o s] /\
  remote (flow_state (loop_body hc o s)) =
    snd (getHyperCubeData "/qHyperCubeDef" [shrink_window hc o s] r1).
Proof.
  intros Hf H1. unfold loop_body. rewrite Hf, H1. simpl.
  destruct (getHyperCubeData _ _ r1) as [[pd|e2] r2]; simpl.
  - destruct (page_matrix pd); simpl; rewrite <- app_assoc; done.
  - rewrite <- app_assoc; done.
Qed.

Lemma loop_body_mismatch_rejected (s : LoopState R) e r1 e2 r2 :
  invoke (primary_method hc) (primary_window hc o s) (remote s) = (Rejected e, r1) ->
  is_page_too_large e = false ->
  is_not_pivot_mode e = true ->
  invoke GetHyperCubeData (primary_window hc o s) r1 = (Rejected e2, r2) ->
  loop_body hc o s =
    Break (unchanged s r2 (calls s ++ [primary_call hc o s; straight_call hc o s])).
Proof.
  intros Hf H1 H2 Hr. unfold loop_body. rewrite Hf, H1, H2, Hr.
  rewrite <- app_assoc. reflexivity.
Qed.

Lemma loop_body_mismatch (s : LoopState R) e r1 :
  invoke (primary_method hc) (primary_window hc o s) (remote s) = (Rejected e, r1) ->
  is_page_too_large e = false ->
  is_not_pivot_mode e = true ->
  calls (flow_state (loop_body hc o s)) =
    calls s ++ [primary_call hc o s; straight_call hc o s] /\
  remote (flow_state (loop_body hc o s)) =
    snd (getHyperCubeData "/qHyperCubeDef" [primary_window hc o s] r1).
Proof.
  intros Hf H1 H2. unfold loop_body. rewrite Hf, H1, H2. simpl.
  destruct (getHyperCubeData _ _ r1) as [[pd|e2] r2]; simpl.
  - destruct (page_matrix pd); simpl; rewrite <- app_assoc; done.
  - rewrite <- app_assoc; done.
Qed.

Lemma loop_body_mismatch_served (s : LoopState R) e r1 pd r2 rows :
  invoke (primary_method hc) (primary_window hc o s) (remote s) = (Rejected e, r1) ->
  is_page_too_large e = false ->
  is_not_pivot_mode e = true ->
  invoke GetHyperCubeData (primary_window hc o s) r1 = (Resolved pd, r2) ->
  page_matrix pd = Some rows ->
  loop_body hc o s =
    Continue {| allData := allData s ++ rows;
                currentRow := currentRow s + rowsToFetch hc o s;
                pagesProcessed := pagesProcessed s + 1;
                remote := r2;
                calls := calls s ++ [primary_call hc o s; straight_call hc o s] |}.
Proof.
  intros Hf H1 H2 Hr Hm. unfold loop_body. rewrite Hf, H1, H2, Hr, Hm.
  rewrite <- app_assoc. reflexivity.
Qed.

(** *** Running the loop in two stretches *)

Lemma while_out_of_fuel_test (n : nat) (s0 s : LoopState R) :
  while hc o n s0 = OutOfFuel s -> loop_test hc o s = true.
Proof.
  revert s0. induction n as [|n IH]; intros s0; simpl.
  - destruct (loop_test hc o s0) eqn:Ht; [|done]. by intros [= <-].
  - destruct (loop_test hc o s0); [|done].
    destruct (loop_body hc o s0); [|done]. apply IH.
Qed.

Lemma while_resume (n k : nat) (s0 s : LoopState R) :
  while hc o n s0 = OutOfFuel s ->
  while hc o (n + k) s0 = while hc o k s.
Proof.
  revert s0. induction n as [|n IH]; intros s0; simpl.
  - destruct (loop_test hc o s0); [|done]. by intros [= <-].
  - destruct (loop_test hc o s0); [|done].
    destruct (loop_body hc o s0); [|done]. apply IH.
Qed.

Lemma while_finished_more (n k : nat) (s0 s : LoopState R) :
  while hc o n s0 = Finished s ->
  while hc o (n + k) s0 = Finished s.
Proof.
  revert s0. induction n as [|n IH]; intros s0; simpl.
  - destruct (loop_test hc o s0) eqn:Ht; [done|].
    intros [= <-]. destruct k; simpl; by rewrite Ht.
  - destruct (loop_test hc o s0); [|done].
    destruct (loop_body hc o s0); [|done]. apply IH.
Qed.

(** A [break] at the state reached after [n] iterations ends the loop,
    whatever the bound beyond [n]. *)
Lemma while_break_after (n fuel : nat) (s0 s s' : LoopState R) :
  while hc o n s0 = OutOfFuel s ->
  loop_body hc o s = Break s' ->
  (n < fuel)%nat ->
  while hc o fuel s0 = Finished s'.
Proof.
  intros Hrun Hbody Hlt.
  replace fuel with (n + S (fuel - S n))%nat by lia.
  rewrite (while_resume _ _ _ _ Hrun). simpl.
  rewrite (while_out_of_fuel_test _ _ _ Hrun), Hbody. reflexivity.
Qed.

End LoopFacts.

(** * Properties of [extractPivotData] *)

Lemma is_page_too_large_iff (e : JsError) :
  is_page_too_large e = true <->
  code e = CodeNumber 6001 \/ parameter e = Some "Page(s) too large".
Proof.
  unfold is_page_too_large, code_is_number, parameter_is.
  rewrite orb_true_iff. split.
  - intros [Hc | Hp].
    + left. destruct (code e); try done. apply Z.eqb_eq in Hc. by subst.
    + right. destruct (parameter e); try done. apply String.eqb_eq in Hp. by subst.
  - intros [-> | ->]; [left | right]; reflexivity.
Qed.

Section ExtractFacts.
Context {R : Type} {PO : PivotObject R}.
Variable pivotObject : R.
Variable o : Options.
Variable layout : Layout.
Variable r0 : R.
Hypothesis layout_resolved : getLayout pivotObject = (Resolved layout, r0).

Let hc := qHyperCube layout.

Lemma extract_finished (fuel : nat) (s : LoopState R) :
  while hc o fuel (initial_state o r0) = Finished s ->
  extractPivotData fuel pivotObject o =
    Returned (build_result hc o s) (remote s) (calls s).
Proof.
  intros Hw. unfold extractPivotData. rewrite layout_resolved.
  fold hc. rewrite Hw. reflexivity.
Qed.


Lemma extract_run_state (fuel : nat) :
  issued (extractPivotData fuel pivotObject o) =
    calls (run_state (while hc o fuel (initial_state o r0))) /\
  remote_after (extractPivotData fuel pivotObject o) =
    remote (run_state (while hc o fuel (initial_state o r0))).
Proof.
  unfold extractPivotData. rewrite layout_resolved. fold hc.
  destruct (while hc o fuel (initial_state o r0)); done.
Qed.

Lemma extract_break_after (n fuel : nat) (s s' : LoopState R) :
  while hc o n (initial_state o r0) = OutOfFuel s ->
  loop_body hc o s = Break s' ->
  (n < fuel)%nat ->
  extractPivotData fuel pivotObject o =
    Returned (build_result hc o s') (remote s') (calls s').
Proof.
  intros Hrun Hbody Hlt. apply extract_finished.
  eapply while_break_after; eauto.
Qed.

Lemma while_one_more (n : nat) (s0 s : LoopState R) :
  while hc o n s0 = OutOfFuel s ->
  run_state (while hc o (S n) s0) = flow_state (loop_body hc o s).
Proof.
  intros Hrun. replace (S n) with (n + 1)%nat by lia.
  rewrite (while_resume _ _ _ _ _ _ Hrun). simpl.
  rewrite (while_out_of_fuel_test _ _ _ _ _ Hrun).
  destruct (loop_body hc o s) as [s'|s']; simpl; [|done].
  destruct (loop_test hc o s'); done.
Qed.

End ExtractFacts.

Section FaultHandling.
Context {R : Type} {PO : PivotObject R}.
Variable pivotObject : R.
Variable o : Options.
Variable layout : Layout.
Variable r0 : R.
Hypothesis layout_resolved : getLayout pivotObject = (Resolved layout, r0).

Let hc := qHyperCube layout.

(** The loop has run [n] full iterations and stands at the top of the
    loop in state [s], with the loop condition true. *)
Variable n : nat.
Variable s : LoopState R.
Hypothesis reached : while hc o n (initial_state o r0) = OutOfFuel s.

(** C10: when the fetch of a page is rejected with code 6001 or with the
    parameter 'Page(s) too large', the iteration issues exactly one more
    request, through [getHyperCubeData], for the window at the same top
    row with height [max 10 (floor (rowsToFetch / 2))]; this holds for
    every layout mode of the cube. *)
Theorem too_large_retry_uses_getHyperCubeData (e : JsError) (r1 : R) :
  invoke (primary_method hc) (primary_window hc o s) (remote s) = (Rejected e, r1) ->
  code e = CodeNumber 6001 \/ parameter e = Some "Page(s) too large" ->
  let retry_window :=
    {| qTop := currentRow s; qLeft := startCol o;
       qHeight := Z.max 10 (rowsToFetch hc o s / 2);
       qWidth := totalCols hc o |} in
  issued (extractPivotData (S n) pivotObject o) =
    calls s ++ [primary_call hc o s;
                {| site := ShrinkRetry; method := GetHyperCubeData;
                   window := retry_window |}] /\
  remote_after (extractPivotData (S n) pivotObject o) =
    snd (getHyperCubeData "/qHyperCubeDef" [retry_window] r1).
Proof.
  intros Hf He retry_window. apply is_page_too_large_iff in He.
  destruct (extract_run_state pivotObject o layout r0 layout_resolved (S n))
    as [-> ->].
  pose proof (while_one_more o layout n _ s reached) as Hstep.
  cbv zeta in Hstep. fold hc in Hstep |- *. rewrite Hstep.
  exact (loop_body_too_large hc o s e r1 Hf He).
Qed.

(** C9 (as amended): when the fetch in the [try] block resolves but the
    response is null, has no page, or its first page has no [qMatrix],
    the loop ends at once and the rows assembled so far are returned,
    with no further request. *)
Theorem primary_fetch_without_matrix_ends_extraction
    (pageData : PageData) (r1 : R) (fuel : nat) :
  invoke (primary_method hc) (primary_window hc o s) (remote s)
    = (Resolved pageData, r1) ->
  page_matrix pageData = None ->
  (n < fuel)%nat ->
  exists result,
    extractPivotData fuel pivotObject o =
      Returned result r1 (calls s ++ [primary_call hc o s]) /\
    data result = allData s /\
    Meta.extractedRows (metadata result) = Z.of_nat (length (allData s)) /\
    Meta.pagesProcessed (metadata result) = pagesProcessed s.
Proof.
  intros Hf Hm Hlt.
  exists (build_result hc o s). split; [|done].
  rewrite (extract_break_after pivotObject o layout r0 layout_resolved n fuel s _
             reached (loop_body_no_matrix hc o s pageData r1 Hf Hm) Hlt).
  reflexivity.
Qed.

(** C7 (as amended): when the fetch of a page is rejected with an error
    that is none of the three handled faults, the loop ends and the call
    returns the rows assembled so far; [extractedRows] is their number
    and [pagesProcessed] the number of pages assembled.  The metadata
    object has no [terminationReason] property. *)
Theorem fatal_fault_returns_partial_result
    (e : JsError) (r1 : R) (fuel : nat) :
  invoke (primary_method hc) (primary_window hc o s) (remote s) = (Rejected e, r1) ->
  is_page_too_large e = false ->
  is_not_pivot_mode e = false ->
  is_aborted e = false ->
  (n < fuel)%nat ->
  exists result,
    extractPivotData fuel pivotObject o =
      Returned result r1 (calls s ++ [primary_call hc o s]) /\
    data result = allData s /\
    Meta.extractedRows (metadata result) = Z.of_nat (length (allData s)) /\
    Meta.pagesProcessed (metadata result) = pagesProcessed s /\
    Meta.get "terminationReason" (metadata result) = None.
Proof.
  intros Hf H1 H2 H3 Hlt.
  exists (build_result hc o s). split; [|done].
  rewrite (extract_break_after pivotObject o layout r0 layout_resolved n fuel s _
             reached (loop_body_fatal hc o s e r1 Hf H1 H2 H3) Hlt).
  reflexivity.
Qed.

(** C4 (as amended): when the fetch of a page is rejected with a mode
    fault (code 6002 or parameter 'Not in pivot mode') that is not also a
    capacity fault (code 6001 or parameter 'Page(s) too large', which is
    tested first), the iteration issues exactly one more request: the
    same window through [getHyperCubeData], whether that retry is served
    or rejected.  When the retry is served with a matrix, its rows are
    assembled and the page is counted; when it is rejected, whatever its
    error, the loop ends and the rows assembled so far are returned.
    This holds at every page reached, also after earlier retries:
    nothing records that the retry was used. *)
Theorem mode_fault_retried_once_per_page (e : JsError) (r1 : R) :
  invoke (primary_method hc) (primary_window hc o s) (remote s) = (Rejected e, r1) ->
  is_page_too_large e = false ->
  is_not_pivot_mode e = true ->
  let retry :=
    {| site := StraightRetry; method := GetHyperCubeData;
       window := primary_window hc o s |} in
  (issued (extractPivotData (S n) pivotObject o) =
     calls s ++ [primary_call hc o s; retry] /\
   remote_after (extractPivotData (S n) pivotObject o) =
     snd (getHyperCubeData "/qHyperCubeDef" [primary_window hc o s] r1)) /\
  (forall (pageData : PageData) (r2 : R) (matrixData : list Row),
     invoke GetHyperCubeData (primary_window hc o s) r1 = (Resolved pageData, r2) ->
     page_matrix pageData = Some matrixData ->
     assembled (extractPivotData (S n) pivotObject o) = allData s ++ matrixData /\
     pages_counted (extractPivotData (S n) pivotObject o) = pagesProcessed s + 1) /\
  (forall (e2 : JsError) (r2 : R) (fuel : nat),
     invoke GetHyperCubeData (primary_window hc o s) r1 = (Rejected e2, r2) ->
     (n < fuel)%nat ->
     exists result,
       extractPivotData fuel pivotObject o =
         Returned result r2 (calls s ++ [primary_call hc o s; retry]) /\
       data result = allData s /\
       Meta.pagesProcessed (metadata result) = pagesProcessed s).
Proof.
  intros Hf H1 H2 retry.
  pose proof (while_one_more o layout n _ s reached) as Hstep.
  cbv zeta in Hstep. fold hc in Hstep.
  split; [|split].
  - destruct (extract_run_state pivotObject o layout r0 layout_resolved (S n))
      as [-> ->].
    fold hc. rewrite Hstep.
    exact (loop_body_mismatch hc o s e r1 Hf H1 H2).
  - intros pageData r2 matrixData Hr Hm.
    pose proof (loop_body_mismatch_served hc o s e r1 pageData r2 matrixData
                  Hf H1 H2 Hr Hm) as Hbody.
    rewrite Hbody in Hstep. cbn [flow_state] in Hstep.
    unfold extractPivotData. rewrite layout_resolved. fold hc.
    destruct (while hc o (S n) (initial_state o r0)) as [s'|s'];
      cbn [run_state] in Hstep; subst s'; done.
  - intros e2 r2 fuel Hr Hlt.
    exists (build_result hc o s). split; [|done].
    rewrite (extract_break_after pivotObject o layout r0 layout_resolved n fuel s _
               reached (loop_body_mismatch_rejected hc o s e r1 e2 r2 Hf H1 H2 Hr) Hlt).
    reflexivity.
Qed.

End FaultHandling.

(** ** The fault-handling theorems on scripted pivot objects *)

(** C10 at a pivot-mode cube of 1000 rows whose first request is rejected
    with code 6001: the retry asks [getHyperCubeData] for 50 rows. *)
Lemma too_large_retry_witness :
  let retry_window := {| qTop := 0; qLeft := 0; qHeight := 50; qWidth := 1 |} in
  issued (extractPivotData 1 too_large_once (with_page_size 100 10)) =
    [{| site := Primary; method := GetHyperCubePivotData;
        window := {| qTop := 0; qLeft := 0; qHeight := 100; qWidth := 1 |} |};
     {| site := ShrinkRetry; method := GetHyperCubeData;
        window := retry_window |}] /\
  served (remote_after (extractPivotData 1 too_large_once (with_page_size 100 10)))
    = 2%nat.
Proof.
  destruct (too_large_retry_uses_getHyperCubeData (PO := scripted_pivot_object)
              too_large_once (with_page_size 100 10)
              (cube 1000 "EQ_DATA_MODE_PIVOT") too_large_once ltac:(reflexivity)
              0%nat (initial_state (with_page_size 100 10) too_large_once) ltac:(reflexivity)
              (fault (CodeNumber 6001))
              (snd (scripted_fetch GetHyperCubePivotData [] too_large_once))
              ltac:(reflexivity) ltac:(left; reflexivity)) as [Hlog Hremote].
  split; [exact Hlog | rewrite Hremote; reflexivity].
Defined.

(** C9 (as amended) at a ten-row cube, three rows per page, whose third
    reply is null: the six rows of the first two pages are returned. *)
Lemma primary_fetch_without_matrix_witness :
  exists result r log,
    extractPivotData 3 null_on_third (with_page_size 3 10) = Returned result r log /\
    data result = map table_row [0; 1; 2; 3; 4; 5] /\
    Meta.extractedRows (metadata result) = 6 /\
    Meta.pagesProcessed (metadata result) = 2 /\
    length log = 3%nat.
Proof.
  destruct (primary_fetch_without_matrix_ends_extraction (PO := scripted_pivot_object)
              null_on_third (with_page_size 3 10)
              (cube 10 "EQ_DATA_MODE_PIVOT") null_on_third ltac:(reflexivity)
              2%nat _ ltac:(reflexivity) None _ 3%nat ltac:(reflexivity) ltac:(reflexivity) (le_n 3))
    as (result & Hret & Hdata & Hrows & Hpages).
  eexists result, _, _.
  split; [exact Hret|]. split; [exact Hdata|]. split; [exact Hrows|].
  split; [exact Hpages | reflexivity].
Defined.

(** The claim C9 as stated fails for a matrix that is present but empty:
    the reply counts as a page, the cursor moves past the window, and the
    loop goes on to fetch and assemble the next row. *)
Lemma empty_matrix_does_not_end_loop :
  exists result r log,
    extractPivotData 5 empty_matrix_first (with_page_size 1 10) = Returned result r log /\
    data result = [table_row 1] /\
    Meta.pagesProcessed (metadata result) = 2 /\
    map (fun c => qTop (window c)) log = [0; 1].
Proof. eexists _, _, _. split; [reflexivity|]. repeat split. Qed.

(** C7 (as amended) at a ten-row cube, three rows per page, whose third
    request fails with an unclassified error. *)
Lemma fatal_fault_partial_result_witness :
  exists result r log,
    extractPivotData 3 fatal_on_third (with_page_size 3 10) = Returned result r log /\
    data result = map table_row [0; 1; 2; 3; 4; 5] /\
    Meta.extractedRows (metadata result) = 6 /\
    Meta.pagesProcessed (metadata result) = 2.
Proof.
  destruct (fatal_fault_returns_partial_result (PO := scripted_pivot_object)
              fatal_on_third (with_page_size 3 10)
              (cube 10 "EQ_DATA_MODE_PIVOT") fatal_on_third ltac:(reflexivity)
              2%nat _ ltac:(reflexivity) (fault CodeUndefined) _ 3%nat
              ltac:(reflexivity) ltac:(reflexivity) ltac:(reflexivity) ltac:(reflexivity) (le_n 3))
    as (result & Hret & Hdata & Hrows & Hpages & _).
  eexists result, _, _.
  split; [exact Hret|]. split; [exact Hdata|]. split; [exact Hrows | exact Hpages].
Defined.

(** The claim C7 as stated fails on the reported reason: the metadata of
    the result returned after a fatal fault has the seven properties of
    the object literal, and [terminationReason] is not one of them. *)
Lemma aborted_result_has_no_termination_reason :
  exists result r log,
    extractPivotData 10 fatal_on_third (with_page_size 3 10) = Returned result r log /\
    Meta.get "extractedRows" (metadata result) = Some (Meta.Number 6) /\
    Meta.get "terminationReason" (metadata result) = None.
Proof. eexists _, _, _. split; [reflexivity|]. split; reflexivity. Qed.

(** C4 (as amended) at a cube all of whose requests are rejected with code
    6002: the pivot call, one straight call, and an empty result. *)
Lemma mode_fault_retry_witness :
  exists result r,
    extractPivotData 1 (always_mismatch "EQ_DATA_MODE_PIVOT") default_options =
      Returned result r
        [{| site := Primary; method := GetHyperCubePivotData;
            window := {| qTop := 0; qLeft := 0; qHeight := 10; qWidth := 1 |} |};
         {| site := StraightRetry; method := GetHyperCubeData;
            window := {| qTop := 0; qLeft := 0; qHeight := 10; qWidth := 1 |} |}] /\
    data result = [] /\
    Meta.pagesProcessed (metadata result) = 0.
Proof.
  destruct (mode_fault_retried_once_per_page (PO := scripted_pivot_object)
              (always_mismatch "EQ_DATA_MODE_PIVOT") default_options
              (cube 10 "EQ_DATA_MODE_PIVOT") (always_mismatch "EQ_DATA_MODE_PIVOT")
              ltac:(reflexivity) 0%nat _ ltac:(reflexivity)
              (fault (CodeNumber 6002)) _
              ltac:(reflexivity) ltac:(reflexivity) ltac:(reflexivity))
    as (_ & _ & Hrejected).
  destruct (Hrejected (fault (CodeNumber 6002)) _ 1%nat ltac:(reflexivity) (le_n 1))
    as (result & Hret & Hdata & Hpages).
  eexists result, _. split; [exact Hret|]. split; [exact Hdata | exact Hpages].
Defined.

(** The claim C4 as stated fails on "at most one mode switch globally":
    on a pivot-mode cube whose pivot call always reports the mode fault
    while the straight call is served, both pages of one extraction go
    through the straight-table retry. *)
Lemma mode_switch_repeats_on_every_page :
  exists result r log,
    extractPivotData 5 straight_only (with_page_size 1 10) = Returned result r log /\
    data result = map table_row [0; 1] /\
    map (fun c => (site c, method c, qTop (window c))) log =
      [(Primary, GetHyperCubePivotData, 0); (StraightRetry, GetHyperCubeData, 0);
       (Primary, GetHyperCubePivotData, 1); (StraightRetry, GetHyperCubeData, 1)].
Proof. eexists _, _, _. split; [reflexivity|]. split; reflexivity. Qed.

(** ** Extraction from a remote that serves every window in full *)

Lemma ceil_div_zero (b : Z) : 0 < b -> ceil_div 0 b = 0.
Proof. intros Hb. unfold ceil_div. apply Z.div_small. lia. Qed.

Lemma ceil_div_step (x b : Z) :
  0 < b -> 0 < x -> ceil_div (x - Z.min b x) b = ceil_div x b - 1.
Proof.
  intros Hb Hx. unfold ceil_div.
  destruct (Z.le_gt_cases x b) as [Hle | Hgt].
  - rewrite Z.min_r by lia.
    replace (x - x + b - 1) with (b - 1) by lia.
    rewrite Z.div_small by lia.
    symmetry. apply Z.sub_move_r. symmetry.
    apply (Z.div_unique _ _ 1 (x - 1)); lia.
  - rewrite Z.min_l by lia.
    replace (x - b + b - 1) with (x + b - 1 + (-1) * b) by lia.
    rewrite Z.div_add by lia. lia.
Qed.

Lemma ceil_div_positive (x b : Z) : 0 < b -> 0 < x -> 1 <= ceil_div x b.
Proof.
  intros Hb Hx. unfold ceil_div.
  apply Z.div_le_lower_bound; lia.
Qed.

Section NoFaults.
Context {R : Type} {PO : PivotObject R}.

Variable hc : HyperCube.
Variable o : Options.

(** The states of a remote that serves in full every page the loop can
    ask for through the call of the cube's mode; a window that reaches
    past the last row is none of them. *)
Variable serving : R -> Prop.
Hypothesis fault_free :
  forall (w : NxPage) (r : R),
    serving r -> page_window hc o w ->
    serves_rows (invoke (primary_method hc) w r) (qHeight w) /\
    serving (snd (invoke (primary_method hc) w r)).

Hypothesis page_size_positive : 0 < pageSize o.

Lemma while_without_faults (fuel : nat) (s : LoopState R) :
  serving (remote s) ->
  startRow o <= currentRow s ->
  currentRow s <= totalRows hc ->
  pagesProcessed s + ceil_div (totalRows hc - currentRow s) (pageSize o)
    <= maxPages o ->
  (Z.to_nat (ceil_div (totalRows hc - currentRow s) (pageSize o)) <= fuel)%nat ->
  exists s',
    while hc o fuel s = Finished s' /\
    Z.of_nat (length (allData s')) =
      Z.of_nat (length (allData s)) + (totalRows hc - currentRow s) /\
    pagesProcessed s' =
      pagesProcessed s + ceil_div (totalRows hc - currentRow s) (pageSize o).
Proof.
  revert s. induction fuel as [|fuel IH]; intros s Hs Hfrom Hcur Hcap Hfuel.
  - assert (currentRow s = totalRows hc) as Heq.
    { destruct (Z.eq_dec (currentRow s) (totalRows hc)); [done|].
      pose proof (ceil_div_positive (totalRows hc - currentRow s) (pageSize o)).
      lia. }
    exists s. simpl. unfold loop_test.
    rewrite (proj2 (Z.ltb_ge _ _)) by lia. simpl.
    rewrite Heq, Z.sub_diag, ceil_div_zero by done. split; [done|lia].
  - simpl. unfold loop_test.
    destruct (Z.ltb_spec (currentRow s) (totalRows hc)) as [Hlt | Hge]; simpl.
    + pose proof (ceil_div_positive (totalRows hc - currentRow s) (pageSize o)
                    page_size_positive ltac:(lia)) as Hpos.
      rewrite (proj2 (Z.ltb_lt _ _)) by lia.
      destruct (fault_free (primary_window hc o s) (remote s) Hs)
        as [(pd & r1 & rows & Hinv & Hm & Hlen) Hs1].
      { unfold page_window. simpl. unfold rowsToFetch. lia. }
      rewrite (loop_body_page hc o s pd r1 rows Hinv Hm).
      rewrite Hinv in Hs1. simpl in Hs1, Hlen.
      pose proof (ceil_div_step (totalRows hc - currentRow s) (pageSize o)
                    page_size_positive ltac:(lia)) as Hstep.
      edestruct (IH {| allData := allData s ++ rows;
                       currentRow := currentRow s + rowsToFetch hc o s;
                       pagesProcessed := pagesProcessed s + 1;
                       remote := r1;
                       calls := calls s ++ [primary_call hc o s] |})
        as (s' & Hw & Hrows & Hpages); simpl.
      * exact Hs1.
      * unfold rowsToFetch. lia.
      * unfold rowsToFetch. lia.
      * unfold rowsToFetch.
        replace (totalRows hc - (currentRow s + Z.min (pageSize o) (totalRows hc - currentRow s)))
          with (totalRows hc - currentRow s - Z.min (pageSize o) (totalRows hc - currentRow s))
          by lia.
        lia.
      * unfold rowsToFetch.
        replace (totalRows hc - (currentRow s + Z.min (pageSize o) (totalRows hc - currentRow s)))
          with (totalRows hc - currentRow s - Z.min (pageSize o) (totalRows hc - currentRow s))
          by lia.
        lia.
      * exists s'. split; [exact Hw|].
        simpl in Hrows, Hpages. unfold rowsToFetch in *.
        replace (totalRows hc - (currentRow s + Z.min (pageSize o) (totalRows hc - currentRow s)))
          with (totalRows hc - currentRow s - Z.min (pageSize o) (totalRows hc - currentRow s))
          in * by lia.
        rewrite length_app in Hrows. lia.
    + assert (currentRow s = totalRows hc) as Heq by lia.
      exists s. rewrite Heq, Z.sub_diag, ceil_div_zero by done. split; [done|lia].
Qed.

End NoFaults.

(** C3 (as amended): when every fetch of a page the loop can ask for
    (a window of at most a page that ends inside the cube, through the
    call of the cube's mode) succeeds with exactly the requested rows,
    extraction starts at row 0, the page size is positive and [maxPages]
    is at least [ceil (totalRows / pageSize)], the call returns with
    [extractedRows = totalRows] and
    [pagesProcessed = ceil (totalRows / pageSize)].  Nothing is asked of
    the remote for a window that reaches past the last row. *)
Theorem extract_complete_without_faults
    {R : Type} {PO : PivotObject R} (serving : R -> Prop)
    (pivotObject : R) (o : Options) (layout : Layout) (r0 : R) (fuel : nat) :
  (forall (w : NxPage) (r : R),
     serving r -> page_window (qHyperCube layout) o w ->
     serves_rows (invoke (primary_method (qHyperCube layout)) w r) (qHeight w) /\
     serving (snd (invoke (primary_method (qHyperCube layout)) w r))) ->
  getLayout pivotObject = (Resolved layout, r0) ->
  serving r0 ->
  let total := totalRows (qHyperCube layout) in
  let pages := ceil_div total (pageSize o) in
  startRow o = 0 ->
  0 < pageSize o ->
  0 <= total ->
  pages <= maxPages o ->
  (Z.to_nat pages <= fuel)%nat ->
  exists result r log,
    extractPivotData fuel pivotObject o = Returned result r log /\
    Meta.extractedRows (metadata result) = total /\
    Meta.pagesProcessed (metadata result) = pages.
Proof.
  intros Hfree Hlay Hs0 total pages Hstart Hps Htotal Hcap Hfuel.
  destruct (while_without_faults (qHyperCube layout) o serving Hfree Hps fuel
              (initial_state o r0)) as (s' & Hw & Hrows & Hpages); simpl.
  - exact Hs0.
  - lia.
  - rewrite Hstart. exact Htotal.
  - rewrite Hstart, Z.sub_0_r. fold total pages. lia.
  - rewrite Hstart, Z.sub_0_r. exact Hfuel.
  - exists (build_result (qHyperCube layout) o s'), (remote s'), (calls s').
    split; [exact (extract_finished pivotObject o layout r0 Hlay fuel s' Hw)|].
    simpl in *. rewrite Hstart, Z.sub_0_r in *. fold total pages in Hrows, Hpages.
    split; lia.
Qed.

(** A scripted remote that answers like [clipped_table], which stops at
    its last row, serves in full every window that ends inside the
    table. *)
Lemma clipped_table_serves (n : Z) (mode : string)
    (m : Method) (w : NxPage) (r : Scripted) :
  answer r = answer (clipped_table n mode) ->
  0 <= qHeight w ->
  qTop w + qHeight w <= n ->
  serves_rows (invoke m w r) (qHeight w) /\
  answer (snd (invoke m w r)) = answer (clipped_table n mode).
Proof.
  intros Hr Hh Hin. split.
  - exists (slice (n - qTop w) w), (snd (invoke m w r)),
      (map table_row (seqZ (qTop w) (qHeight w))).
    split; [|split].
    + destruct m; simpl; unfold scripted_fetch; rewrite Hr; reflexivity.
    + unfold slice. simpl. by rewrite Z.min_r by lia.
    + rewrite length_map, length_seqZ. lia.
  - destruct m; simpl; exact Hr.
Qed.

(** C3 (as amended) at a ten-row table read four rows at a time, whose
    server stops at the last row: asked for rows 8 to 11 it would return
    two rows, and the loop asks for rows 8 and 9 only. *)
Lemma extract_complete_witness :
  (exists result r log,
     extractPivotData 3 (clipped_table 10 "EQ_DATA_MODE_PIVOT") (with_page_size 4 10)
       = Returned result r log /\
     Meta.extractedRows (metadata result) = 10 /\
     Meta.pagesProcessed (metadata result) = 3) /\
  fst (invoke GetHyperCubePivotData
         {| qTop := 8; qLeft := 0; qHeight := 4; qWidth := 1 |}
         (clipped_table 10 "EQ_DATA_MODE_PIVOT"))
    = Resolved (Some [{| qMatrix := Some (map table_row [8; 9]) |}]).
Proof.
  split; [|reflexivity].
  apply (extract_complete_without_faults
           (fun r => answer r = answer (clipped_table 10 "EQ_DATA_MODE_PIVOT"))
           (clipped_table 10 "EQ_DATA_MODE_PIVOT") (with_page_size 4 10)
           (cube 10 "EQ_DATA_MODE_PIVOT") (clipped_table 10 "EQ_DATA_MODE_PIVOT") 3%nat).
  - intros w r Hr (_ & _ & _ & Hh & Hin).
    apply clipped_table_serves; [exact Hr | lia | exact Hin].
  - reflexivity.
  - reflexivity.
  - reflexivity.
  - reflexivity.
  - discriminate.
  - discriminate.
  - vm_compute. lia.
Defined.

(** The claim C3 as stated fails without a bound on [maxPages]: with the
    default of ten pages, an eleven-row table read one row at a time
    yields ten rows in ten pages, not eleven. *)
Lemma default_max_pages_caps_extraction :
  exists result r log,
    extractPivotData 20 (exact_table 11 "EQ_DATA_MODE_PIVOT")
      {| pageSize := 1; maxPages := maxPages default_options;
         startRow := 0; startCol := 0; columnCount := None |}
      = Returned result r log /\
    Meta.totalRows (metadata result) = 11 /\
    ceil_div 11 1 = 11 /\
    Meta.extractedRows (metadata result) = 10 /\
    Meta.pagesProcessed (metadata result) = 10.
Proof. eexists _, _, _. split; [vm_compute; reflexivity|]. repeat split. Qed.

(** ** The height of the requested windows *)

Section WindowHeights.
Context {R : Type} {PO : PivotObject R}.
Variable hc : HyperCube.
Variable o : Options.

Lemma primary_call_height (s : LoopState R) :
  height_from_page_size hc o (primary_call hc o s).
Proof. reflexivity. Qed.

Lemma straight_call_height (s : LoopState R) :
  height_from_page_size hc o (straight_call hc o s).
Proof. reflexivity. Qed.

Lemma shrink_call_height (s : LoopState R) :
  height_from_page_size hc o (shrink_call hc o s).
Proof. reflexivity. Qed.

Lemma loop_body_heights (s : LoopState R) :
  Forall (height_from_page_size hc o) (calls s) ->
  Forall (height_from_page_size hc o) (calls (flow_state (loop_body hc o s))).
Proof.
  intros Hlog.
  assert (Forall (height_from_page_size hc o) (calls s ++ [primary_call hc o s]))
    as Hlog1.
  { apply Forall_app. split; [exact Hlog|].
    constructor; [apply primary_call_height | constructor]. }
  assert (Forall (height_from_page_size hc o)
            ((calls s ++ [primary_call hc o s]) ++ [shrink_call hc o s]))
    as Hshrink.
  { apply Forall_app. split; [exact Hlog1|].
    constructor; [apply shrink_call_height | constructor]. }
  assert (Forall (height_from_page_size hc o)
            ((calls s ++ [primary_call hc o s]) ++ [straight_call hc o s]))
    as Hstraight.
  { apply Forall_app. split; [exact Hlog1|].
    constructor; [apply straight_call_height | constructor]. }
  unfold loop_body.
  destruct (invoke (primary_method hc) (primary_window hc o s) (remote s))
    as [[pd|e] r1].
  - destruct (page_matrix pd); exact Hlog1.
  - destruct (is_page_too_large e).
    + destruct (invoke GetHyperCubeData (shrink_window hc o s) r1) as [[pd|e2] r2];
        [destruct (page_matrix pd)|]; exact Hshrink.
    + destruct (is_not_pivot_mode e).
      * destruct (invoke GetHyperCubeData (primary_window hc o s) r1) as [[pd|e2] r2];
          [destruct (page_matrix pd)|]; exact Hstraight.
      * destruct (is_aborted e); exact Hlog1.
Qed.

Lemma while_heights (fuel : nat) (s : LoopState R) :
  Forall (height_from_page_size hc o) (calls s) ->
  Forall (height_from_page_size hc o) (calls (run_state (while hc o fuel s))).
Proof.
  revert s. induction fuel as [|fuel IH]; intros s Hlog; simpl.
  - destruct (loop_test hc o s); exact Hlog.
  - destruct (loop_test hc o s); [|exact Hlog].
    pose proof (loop_body_heights s Hlog) as Hbody.
    destruct (loop_body hc o s) as [s'|s']; simpl in *.
    + apply IH, Hbody.
    + exact Hbody.
Qed.

End WindowHeights.

(** C5 (as amended): the reduced height is used for the one retry of the
    failing window only.  Every fetch of a page, and every straight-table
    retry, requests [min pageSize (totalRows - top)] rows, also after a
    capacity fault; the reduced retry requests [max 10 (floor (h / 2))]
    rows for that [h].  The configured page size is never lowered. *)
Theorem window_height_always_from_page_size
    {R : Type} {PO : PivotObject R}
    (pivotObject : R) (o : Options) (layout : Layout) (r0 : R) (fuel : nat) :
  getLayout pivotObject = (Resolved layout, r0) ->
  Forall (height_from_page_size (qHyperCube layout) o)
         (issued (extractPivotData fuel pivotObject o)).
Proof.
  intros Hlay.
  destruct (extract_run_state pivotObject o layout r0 Hlay fuel) as [-> _].
  apply while_heights. constructor.
Qed.

(** C5 (as amended) on a cube whose first request is rejected as too
    large: the three requests issued in two iterations. *)
Lemma window_height_witness :
  Forall (height_from_page_size (qHyperCube (cube 1000 "EQ_DATA_MODE_PIVOT"))
            (with_page_size 100 10))
         (issued (extractPivotData 2 too_large_once (with_page_size 100 10))).
Proof.
  apply (window_height_always_from_page_size (PO := scripted_pivot_object)
           too_large_once (with_page_size 100 10)
           (cube 1000 "EQ_DATA_MODE_PIVOT") too_large_once 2%nat).
  reflexivity.
Defined.

(** The claim C5 as stated fails: after the retry at 50 rows has
    succeeded, the next window asks for 100 rows again. *)
Lemma shrink_is_not_sticky :
  map (fun c => (site c, qTop (window c), qHeight (window c)))
      (issued (extractPivotData 2 too_large_once (with_page_size 100 10))) =
    [(Primary, 0, 100); (ShrinkRetry, 0, 50); (Primary, 50, 100)].
Proof. reflexivity. Qed.

(** ** Termination of the loop *)

Lemma attempts_snoc (log : list Call) (c : Call) :
  attempts (log ++ [c]) = (attempts log + (if is_primary c then 1 else 0))%nat.
Proof.
  unfold attempts. rewrite List.filter_app, length_app. simpl.
  destruct (is_primary c); reflexivity.
Qed.

Section NoSameWindowRetry.
Context {R : Type} {PO : PivotObject R}.

(** The states of a remote none of whose replies makes the loop try the
    same window again: no rejection is classified as aborted, and no
    reply of [getHyperCubeData] resolves without a matrix. *)
Variable steady : R -> Prop.
Hypothesis never_only_aborted :
  forall (m : Method) (w : NxPage) (r r' : R) (e : JsError),
    steady r -> invoke m w r = (Rejected e, r') -> is_aborted e = true ->
    is_page_too_large e = true \/ is_not_pivot_mode e = true.
Hypothesis retry_carries_matrix :
  forall (w : NxPage) (r r' : R) (pageData : PageData),
    steady r -> invoke GetHyperCubeData w r = (Resolved pageData, r') ->
    page_matrix pageData <> None.
Hypothesis steady_preserved :
  forall (m : Method) (w : NxPage) (r : R),
    steady r -> steady (snd (invoke m w r)).

Variable hc : HyperCube.
Variable o : Options.



End NoSameWindowRetry.





(** ** The cursor under truncated replies *)

(** The reduced retry moves the cursor by the number of rows received. *)
Lemma loop_body_shrink_page {R : Type} {PO : PivotObject R}
    (hc : HyperCube) (o : Options) (s : LoopState R)
    (e : JsError) (r1 r2 : R) (pageData : PageData) (rows : list Row) :
  invoke (primary_method hc) (primary_window hc o s) (remote s) = (Rejected e, r1) ->
  is_page_too_large e = true ->
  invoke GetHyperCubeData (shrink_window hc o s) r1 = (Resolved pageData, r2) ->
  page_matrix pageData = Some rows ->
  loop_body hc o s =
    Continue {| allData := allData s ++ rows;
                currentRow := currentRow s + Z.of_nat (length rows);
                pagesProcessed := pagesProcessed s + 1;
                remote := r2;
                calls := calls s ++ [primary_call hc o s; shrink_call hc o s] |}.
Proof.
  intros Hf He Hr Hm. unfold loop_body. rewrite Hf, He, Hr, Hm.
  rewrite <- app_assoc. reflexivity.
Qed.

(** C1, the code at a truncated reply: a ten-row table is read four rows
    at a time and the server returns three rows for the first window.
    After that page three rows are assembled and the cursor stands at
    row 4, the requested height, not at row 3. *)
Theorem truncated_page_moves_cursor_by_requested_height :
  exists s,
    extractPivotData 1 truncating_table (with_page_size 4 10) = Unfinished s /\
    allData s = map table_row [0; 1; 2] /\
    currentRow s = 4 /\
    pagesProcessed s = 1.
Proof. eexists. split; [reflexivity|]. repeat split. Qed.

(** C2, the code at truncated replies: for the same table the returned
    rows are 0-2, 4-6 and 8-9; rows 3 and 7 lie before the last assembled
    row and are missing. *)
Theorem truncated_pages_leave_gaps :
  exists result r log,
    extractPivotData 10 truncating_table (with_page_size 4 10) = Returned result r log /\
    data result = map table_row [0; 1; 2; 4; 5; 6; 8; 9] /\
    Meta.extractedRows (metadata result) = 8 /\
    map (fun c => (qTop (window c), qHeight (window c))) log = [(0, 4); (4, 4); (8, 2)].
Proof. eexists _, _, _. split; [reflexivity|]. repeat split. Qed.

(** ** Row order when no reply is truncated *)

Section UntruncatedReplies.
Context {R : Type} {PO : PivotObject R}.
Variable hc : HyperCube.
Variable o : Options.

(** The table behind the cube, and the states of a remote every reply of
    which carries exactly the rows of the requested window, clipped at
    the last row of the table. *)
Variable row_at : Z -> Row.
Variable honest : R -> Prop.
Hypothesis honest_reply :
  forall (m : Method) (w : NxPage) (r r' : R) (pageData : PageData) (rows : list Row),
    honest r -> invoke m w r = (Resolved pageData, r') ->
    page_matrix pageData = Some rows ->
    rows = map row_at (seqZ (qTop w) (Z.min (qHeight w) (totalRows hc - qTop w))).
Hypothesis honest_preserved :
  forall (m : Method) (w : NxPage) (r : R),
    honest r -> honest (snd (invoke m w r)).
Hypothesis page_size_nonnegative : 0 <= pageSize o.

Lemma rows_extend (s : LoopState R) (k : Z) :
  startRow o <= currentRow s ->
  0 <= k ->
  allData s = map row_at (seqZ (startRow o) (currentRow s - startRow o)) ->
  allData s ++ map row_at (seqZ (currentRow s) k) =
    map row_at (seqZ (startRow o) (currentRow s + k - startRow o)).
Proof.
  intros Hstart Hk ->.
  replace (currentRow s + k - startRow o) with (currentRow s - startRow o + k) by lia.
  rewrite seqZ_app by lia. rewrite map_app. do 3 f_equal. lia.
Qed.

Lemma loop_body_in_row_order (s : LoopState R) :
  loop_test hc o s = true ->
  in_row_order o row_at honest s ->
  in_row_order o row_at honest (flow_state (loop_body hc o s)).
Proof.
  intros Htest (Hs & Hstart & Hrows).
  unfold loop_test in Htest. apply andb_true_iff in Htest as [Hcur _].
  apply Z.ltb_lt in Hcur.
  pose proof (honest_preserved (primary_method hc) (primary_window hc o s) _ Hs) as Hs1.
  pose proof (honest_reply (primary_method hc) (primary_window hc o s) (remote s)
                (snd (invoke (primary_method hc) (primary_window hc o s) (remote s))))
    as Hreply.
  assert (Z.min (rowsToFetch hc o s) (totalRows hc - currentRow s) = rowsToFetch hc o s)
    as Hfull by (unfold rowsToFetch; lia).
  assert (0 <= rowsToFetch hc o s) as Hnonneg by (unfold rowsToFetch; lia).
  unfold in_row_order, loop_body.
  destruct (invoke (primary_method hc) (primary_window hc o s) (remote s))
    as [[pd|e] r1]; simpl in Hs1, Hreply.
  - destruct (page_matrix pd) as [rows|] eqn:Hpd; cbn [flow_state remote currentRow allData].
    + rewrite (Hreply pd rows Hs eq_refl Hpd), Hfull.
      split; [exact Hs1|]. split; [lia|]. by apply rows_extend.
    + split; [exact Hs1|]. split; [exact Hstart | exact Hrows].
  - destruct (is_page_too_large e).
    + pose proof (honest_preserved GetHyperCubeData (shrink_window hc o s) _ Hs1) as Hs2.
      pose proof (honest_reply GetHyperCubeData (shrink_window hc o s) r1
                    (snd (invoke GetHyperCubeData (shrink_window hc o s) r1))) as Hretry.
      destruct (invoke GetHyperCubeData (shrink_window hc o s) r1) as [[pd|e2] r2];
        simpl in Hs2, Hretry.
      * destruct (page_matrix pd) as [rows|] eqn:Hpd; cbn [flow_state remote currentRow allData].
        -- rewrite (Hretry pd rows Hs1 eq_refl Hpd).
           cbn [shrink_window qTop qHeight].
           set (k := Z.min (newPageSize hc o s) (totalRows hc - currentRow s)).
           assert (0 <= k) as Hk by (unfold k, newPageSize; lia).
           rewrite length_map, length_seqZ, Z2Nat.id by exact Hk.
           split; [exact Hs2|]. split; [lia|]. by apply rows_extend.
        -- split; [exact Hs2|]. split; [exact Hstart | exact Hrows].
      * cbn [flow_state remote currentRow allData]. split; [exact Hs2|]. split; [exact Hstart | exact Hrows].
    + destruct (is_not_pivot_mode e).
      * pose proof (honest_preserved GetHyperCubeData (primary_window hc o s) _ Hs1) as Hs2.
        pose proof (honest_reply GetHyperCubeData (primary_window hc o s) r1
                      (snd (invoke GetHyperCubeData (primary_window hc o s) r1))) as Hretry.
        destruct (invoke GetHyperCubeData (primary_window hc o s) r1) as [[pd|e2] r2];
          simpl in Hs2, Hretry.
        -- destruct (page_matrix pd) as [rows|] eqn:Hpd; cbn [flow_state remote currentRow allData].
           ++ rewrite (Hretry pd rows Hs1 eq_refl Hpd), Hfull.
              split; [exact Hs2|]. split; [lia|]. by apply rows_extend.
           ++ split; [exact Hs2|]. split; [exact Hstart | exact Hrows].
        -- cbn [flow_state remote currentRow allData]. split; [exact Hs2|]. split; [exact Hstart | exact Hrows].
      * destruct (is_aborted e); cbn [flow_state remote currentRow allData];
          (split; [exact Hs1|]; split; [exact Hstart | exact Hrows]).
Qed.

Lemma while_in_row_order (fuel : nat) (s : LoopState R) :
  in_row_order o row_at honest s ->
  in_row_order o row_at honest (run_state (while hc o fuel s)).
Proof.
  revert s. induction fuel as [|fuel IH]; intros s Hinv; simpl.
  - destruct (loop_test hc o s); exact Hinv.
  - destruct (loop_test hc o s) eqn:Htest; [|exact Hinv].
    pose proof (loop_body_in_row_order s Htest Hinv) as Hbody.
    destruct (loop_body hc o s) as [s'|s']; simpl in *.
    + apply IH, Hbody.
    + exact Hbody.
Qed.

End UntruncatedReplies.

(** When every reply carries exactly the rows of the requested window
    (clipped at the end of the table) and the page size is not negative,
    the rows assembled at any point of the extraction, and so the rows
    returned however the loop ends, are the consecutive rows of the table
    from [startRow] on: in order, none twice, none missing. *)
Theorem untruncated_replies_keep_row_order
    {R : Type} {PO : PivotObject R} (row_at : Z -> Row) (honest : R -> Prop)
    (pivotObject : R) (o : Options) (layout : Layout) (r0 : R) (fuel : nat) :
  (forall (m : Method) (w : NxPage) (r r' : R) (pageData : PageData) (rows : list Row),
     honest r -> invoke m w r = (Resolved pageData, r') ->
     page_matrix pageData = Some rows ->
     rows = map row_at
              (seqZ (qTop w)
                    (Z.min (qHeight w) (totalRows (qHyperCube layout) - qTop w)))) ->
  (forall (m : Method) (w : NxPage) (r : R),
     honest r -> honest (snd (invoke m w r))) ->
  getLayout pivotObject = (Resolved layout, r0) ->
  honest r0 ->
  0 <= pageSize o ->
  assembled (extractPivotData fuel pivotObject o) =
    map row_at
      (seqZ (startRow o)
            (Z.of_nat (length (assembled (extractPivotData fuel pivotObject o))))).
Proof.
  intros Hreply Hpres Hlay Hr0 Hps.
  destruct (while_in_row_order (qHyperCube layout) o row_at honest Hreply Hpres Hps
              fuel (initial_state o r0)) as (_ & Hstart & Hrows).
  { split; [exact Hr0|]. split; [simpl; lia|]. simpl. by rewrite Z.sub_diag. }
  assert (assembled (extractPivotData fuel pivotObject o) =
          allData (run_state (while (qHyperCube layout) o fuel (initial_state o r0))))
    as ->.
  { unfold extractPivotData. rewrite Hlay.
    destruct (while (qHyperCube layout) o fuel (initial_state o r0)); reflexivity. }
  set (s' := run_state (while (qHyperCube layout) o fuel (initial_state o r0))) in *.
  assert (Z.of_nat (length (allData s')) = currentRow s' - startRow o) as ->.
  { rewrite Hrows, length_map, length_seqZ. lia. }
  exact Hrows.
Qed.

Lemma clipped_table_honest (n : Z) (mode : string)
    (m : Method) (w : NxPage) (r r' : Scripted)
    (pageData : PageData) (rows : list Row) :
  answer r = answer (clipped_table n mode) ->
  invoke m w r = (Resolved pageData, r') ->
  page_matrix pageData = Some rows ->
  rows = map table_row (seqZ (qTop w) (Z.min (qHeight w) (n - qTop w))).
Proof.
  intros Hr Hinv Hm.
  assert (pageData = slice (n - qTop w) w) as ->.
  { destruct m; simpl in Hinv; unfold scripted_fetch in Hinv;
      rewrite Hr in Hinv; simpl in Hinv; congruence. }
  unfold slice in Hm. simpl in Hm. injection Hm as <-.
  by rewrite Z.min_comm.
Qed.

(** The row-order theorem at a ten-row table read four rows at a time. *)
Lemma untruncated_replies_witness :
  assembled (extractPivotData 5 (clipped_table 10 "EQ_DATA_MODE_PIVOT")
               (with_page_size 4 10)) =
    map table_row [0; 1; 2; 3; 4; 5; 6; 7; 8; 9].
Proof.
  rewrite (untruncated_replies_keep_row_order table_row
             (fun r => answer r = answer (clipped_table 10 "EQ_DATA_MODE_PIVOT"))
             (clipped_table 10 "EQ_DATA_MODE_PIVOT") (with_page_size 4 10)
             (cube 10 "EQ_DATA_MODE_PIVOT") (clipped_table 10 "EQ_DATA_MODE_PIVOT")
             5%nat).
  - reflexivity.
  - intros m w r r' pd rows. apply clipped_table_honest.
  - intros m w r Hr. destruct m; exact Hr.
  - reflexivity.
  - reflexivity.
  - discriminate.
Defined.

(** * Further properties of [extractPivotData] *)

(** ** The page cap under a remote that serves every page in full *)

Section NoFaultsCapped.
Context {R : Type} {PO : PivotObject R}.
Variable hc : HyperCube.
Variable o : Options.
Variable serving : R -> Prop.
Hypothesis fault_free :
  forall (w : NxPage) (r : R),
    serving r -> page_window hc o w ->
    serves_rows (invoke (primary_method hc) w r) (qHeight w) /\
    serving (snd (invoke (primary_method hc) w r)).
Hypothesis page_size_positive : 0 < pageSize o.

Lemma while_without_faults_capped (fuel : nat) (s : LoopState R) :
  serving (remote s) ->
  startRow o <= currentRow s ->
  currentRow s <= totalRows hc ->
  (Z.to_nat (Z.min (ceil_div (totalRows hc - currentRow s) (pageSize o))
                   (Z.max 0 (maxPages o - pagesProcessed s))) <= fuel)%nat ->
  exists s',
    while hc o fuel s = Finished s' /\
    Z.of_nat (length (allData s')) =
      Z.of_nat (length (allData s)) +
      Z.min (totalRows hc - currentRow s)
            (Z.max 0 (maxPages o - pagesProcessed s) * pageSize o) /\
    pagesProcessed s' =
      pagesProcessed s +
      Z.min (ceil_div (totalRows hc - currentRow s) (pageSize o))
            (Z.max 0 (maxPages o - pagesProcessed s)).
Proof.
  revert s. induction fuel as [|fuel IH]; intros s Hs Hfrom Hcur Hfuel;
    (assert (0 < totalRows hc - currentRow s ->
             1 <= ceil_div (totalRows hc - currentRow s) (pageSize o)) as Hpos
       by (apply ceil_div_positive, page_size_positive));
    (assert (totalRows hc - currentRow s = 0 ->
             ceil_div (totalRows hc - currentRow s) (pageSize o) = 0) as Hzero
       by (intros ->; apply ceil_div_zero, page_size_positive));
    cbn [while]; unfold loop_test;
    destruct (Z.ltb_spec (currentRow s) (totalRows hc)) as [Hlt | Hge];
    destruct (Z.ltb_spec (pagesProcessed s) (maxPages o)) as [Hpg | Hpg];
    cbn [andb];
    try (exists s; split; [done|];
         first [ rewrite (Z.max_l 0 (maxPages o - pagesProcessed s)) by lia;
                 rewrite Z.mul_0_l; split; lia
               | rewrite Hzero by lia;
                 replace (totalRows hc - currentRow s) with 0 by lia;
                 split; nia ]).
  - lia.
  - pose proof (ceil_div_step (totalRows hc - currentRow s) (pageSize o)
                  page_size_positive ltac:(lia)) as Hstep.
    destruct (fault_free (primary_window hc o s) (remote s) Hs)
      as [(pd & r1 & rows & Hinv & Hm & Hlen) Hs1].
    { unfold page_window. cbn [primary_window qHeight qTop qLeft qWidth].
      unfold rowsToFetch. lia. }
    rewrite (loop_body_page hc o s pd r1 rows Hinv Hm).
    rewrite Hinv in Hs1. cbn [snd] in Hs1.
    cbn [primary_window qHeight] in Hlen. unfold rowsToFetch in *.
    set (x := totalRows hc - currentRow s) in *.
    set (ps := pageSize o) in *.
    set (step := Z.min ps x) in *.
    destruct (IH {| allData := allData s ++ rows;
                    currentRow := currentRow s + step;
                    pagesProcessed := pagesProcessed s + 1;
                    remote := r1;
                    calls := calls s ++ [primary_call hc o s] |})
      as (s' & Hw & Hrows & Hpages);
      cbn [allData currentRow pagesProcessed remote].
    + exact Hs1.
    + unfold step, x. lia.
    + unfold step, x. lia.
    + replace (totalRows hc - (currentRow s + step)) with (x - step)
        by (unfold x; lia).
      rewrite Hstep. lia.
    + exists s'. split; [exact Hw|].
      cbn [allData currentRow pagesProcessed remote] in Hrows, Hpages.
      replace (totalRows hc - (currentRow s + step)) with (x - step)
        in Hrows, Hpages by (unfold x; lia).
      rewrite Hstep in Hpages.
      rewrite length_app in Hrows.
      assert (Z.max 0 (maxPages o - (pagesProcessed s + 1)) =
              Z.max 0 (maxPages o - pagesProcessed s) - 1) as Hk by lia.
      rewrite Hk in Hrows, Hpages.
      set (k := Z.max 0 (maxPages o - pagesProcessed s)) in *.
      assert (1 <= k) by (unfold k; lia).
      split; [|lia].
      assert ((k - 1) * ps = k * ps - ps) as Hmul by ring.
      rewrite Hmul in Hrows.
      assert (ps <= k * ps) by nia.
      unfold step in *. lia.
Qed.

End NoFaultsCapped.

(** X2: when every fetch of a page the loop can ask for (a window of at
    most a page that ends inside the cube, through the call of the cube's
    mode) succeeds with exactly the requested rows, the page size is
    positive and [startRow] is not past the end, the call returns
    [min (totalRows - startRow) (maxPages * pageSize)] rows in
    [min (ceil ((totalRows - startRow) / pageSize)) maxPages] pages (a
    negative [maxPages] counting as 0): the page cap cuts the extraction
    short without any fault. *)
Theorem extract_without_faults_capped
    {R : Type} {PO : PivotObject R} (serving : R -> Prop)
    (pivotObject : R) (o : Options) (layout : Layout) (r0 : R) (fuel : nat) :
  (forall (w : NxPage) (r : R),
     serving r -> page_window (qHyperCube layout) o w ->
     serves_rows (invoke (primary_method (qHyperCube layout)) w r) (qHeight w) /\
     serving (snd (invoke (primary_method (qHyperCube layout)) w r))) ->
  getLayout pivotObject = (Resolved layout, r0) ->
  serving r0 ->
  let remaining := totalRows (qHyperCube layout) - startRow o in
  let cap := Z.max 0 (maxPages o) in
  let pages := Z.min (ceil_div remaining (pageSize o)) cap in
  0 < pageSize o ->
  0 <= remaining ->
  (Z.to_nat pages <= fuel)%nat ->
  exists result r log,
    extractPivotData fuel pivotObject o = Returned result r log /\
    Meta.extractedRows (metadata result) = Z.min remaining (cap * pageSize o) /\
    Meta.pagesProcessed (metadata result) = pages.
Proof.
  intros Hfree Hlay Hs0 remaining cap pages Hps Hrem Hfuel.
  destruct (while_without_faults_capped (qHyperCube layout) o serving Hfree Hps fuel
              (initial_state o r0)) as (s' & Hw & Hrows & Hpages);
    cbn [initial_state allData currentRow pagesProcessed remote].
  - exact Hs0.
  - lia.
  - unfold remaining in Hrem. lia.
  - rewrite Z.sub_0_r. exact Hfuel.
  - exists (build_result (qHyperCube layout) o s'), (remote s'), (calls s').
    split; [exact (extract_finished pivotObject o layout r0 Hlay fuel s' Hw)|].
    cbn [initial_state allData currentRow pagesProcessed remote length] in Hrows, Hpages.
    rewrite Z.sub_0_r in Hrows, Hpages.
    cbn [build_result metadata Meta.extractedRows Meta.pagesProcessed].
    fold remaining cap in Hrows, Hpages. fold pages in Hpages.
    split; [lia | exact Hpages].
Qed.

(** X2 at a 25-row table whose server stops at the last row, read four
    rows at a time from row 1, three pages allowed: twelve rows in three
    pages. *)
Lemma extract_capped_witness :
  exists result r log,
    extractPivotData 3 (clipped_table 25 "EQ_DATA_MODE_PIVOT")
      {| pageSize := 4; maxPages := 3; startRow := 1; startCol := 0;
         columnCount := None |}
      = Returned result r log /\
    Meta.extractedRows (metadata result) = 12 /\
    Meta.pagesProcessed (metadata result) = 3.
Proof.
  apply (extract_without_faults_capped
           (fun r => answer r = answer (clipped_table 25 "EQ_DATA_MODE_PIVOT"))
           (clipped_table 25 "EQ_DATA_MODE_PIVOT")
           {| pageSize := 4; maxPages := 3; startRow := 1; startCol := 0;
              columnCount := None |}
           (cube 25 "EQ_DATA_MODE_PIVOT") (clipped_table 25 "EQ_DATA_MODE_PIVOT") 3%nat).
  - intros w r Hr (_ & _ & _ & Hh & Hin).
    apply clipped_table_serves; [exact Hr | lia | exact Hin].
  - reflexivity.
  - reflexivity.
  - reflexivity.
  - discriminate.
  - vm_compute. lia.
Defined.

(** ** Invariants of the loop under any remote *)

(** Case analysis on the path one run of the loop body takes. *)
Ltac loop_body_paths hc o s :=
  unfold loop_body;
  destruct (invoke (primary_method hc) (primary_window hc o s) (remote s))
    as [[?pd|?e] ?r1];
  [ destruct (page_matrix pd) as [?rows|]
  | destruct (is_page_too_large e);
    [ destruct (invoke GetHyperCubeData (shrink_window hc o s) r1)
        as [[?pd|?e2] ?r2];
      [ destruct (page_matrix pd) as [?rows|] | ]
    | destruct (is_not_pivot_mode e);
      [ destruct (invoke GetHyperCubeData (primary_window hc o s) r1)
          as [[?pd|?e2] ?r2];
        [ destruct (page_matrix pd) as [?rows|] | ]
      | destruct (is_aborted e) ] ] ];
  cbn [flow_state allData currentRow pagesProcessed remote calls].

Section LoopInvariants.
Context {R : Type} {PO : PivotObject R}.
Variable hc : HyperCube.
Variable o : Options.

(** An invariant of the loop body holds of the state a bounded run of the
    loop stands at. *)
Lemma while_invariant (P : LoopState R -> Prop) :
  (forall s, loop_test hc o s = true -> P s -> P (flow_state (loop_body hc o s))) ->
  forall (fuel : nat) (s : LoopState R),
    P s -> P (run_state (while hc o fuel s)).
Proof.
  intros Hbody fuel. induction fuel as [|fuel IH]; intros s Hs; cbn [while].
  - destruct (loop_test hc o s); exact Hs.
  - destruct (loop_test hc o s) eqn:Htest; [|exact Hs].
    pose proof (Hbody s Htest Hs) as Hs'.
    destruct (loop_body hc o s) as [s'|s']; cbn [flow_state] in Hs'.
    + apply IH, Hs'.
    + exact Hs'.
Qed.

Lemma loop_body_pages_bounded (s : LoopState R) :
  loop_test hc o s = true ->
  pages_bounded o s -> pages_bounded o (flow_state (loop_body hc o s)).
Proof.
  unfold pages_bounded, loop_test. intros Htest [Hcap Hatt].
  apply andb_true_iff in Htest as [_ Hpg]. apply Z.ltb_lt in Hpg.
  loop_body_paths hc o s; rewrite !attempts_snoc; cbn [is_primary site]; lia.
Qed.

Lemma loop_body_requests_in_range (s : LoopState R) :
  0 < pageSize o ->
  loop_test hc o s = true ->
  requests_in_range hc o s -> requests_in_range hc o (flow_state (loop_body hc o s)).
Proof.
  unfold requests_in_range, loop_test. intros Hps Htest [Hlog Hstart].
  apply andb_true_iff in Htest as [Hcur _]. apply Z.ltb_lt in Hcur.
  assert (request_in_range hc o (primary_call hc o s)) as Hprimary.
  { unfold request_in_range. cbn. unfold rowsToFetch. lia. }
  assert (request_in_range hc o (straight_call hc o s)) as Hstraight.
  { unfold request_in_range. cbn. unfold rowsToFetch. lia. }
  assert (request_in_range hc o (shrink_call hc o s)) as Hshrink.
  { unfold request_in_range. cbn. unfold newPageSize. lia. }
  assert (0 <= rowsToFetch hc o s) as Hstep by (unfold rowsToFetch; lia).
  loop_body_paths hc o s;
    (split; [repeat (apply Forall_app; split); auto | lia]).
Qed.

Lemma tops_snoc (log : list Call) (c : Call) :
  tops (log ++ [c]) = tops log ++ [qTop (window c)].
Proof. unfold tops. by rewrite map_app. Qed.

Lemma ascending_snoc (l : list Z) (t : Z) :
  StronglySorted Z.le l -> Forall (fun x => x <= t) l ->
  StronglySorted Z.le (l ++ [t]).
Proof.
  intros Hl Ht. apply StronglySorted_app. split; [|split].
  - intros x1 x2 H1 H2. apply list_elem_of_singleton in H2 as ->.
    by apply (proj1 (Forall_forall _ _) Ht).
  - exact Hl.
  - repeat constructor.
Qed.

Lemma loop_body_tops_ascending (s : LoopState R) :
  0 <= pageSize o ->
  loop_test hc o s = true ->
  tops_ascending s -> tops_ascending (flow_state (loop_body hc o s)).
Proof.
  unfold tops_ascending, loop_test. intros Hps Htest [Hsorted Hbelow].
  apply andb_true_iff in Htest as [Hcur _]. apply Z.ltb_lt in Hcur.
  assert (0 <= rowsToFetch hc o s) as Hstep by (unfold rowsToFetch; lia).
  assert (StronglySorted Z.le (tops (calls s ++ [primary_call hc o s]))) as Hs1.
  { rewrite tops_snoc. by apply ascending_snoc. }
  assert (forall d, 0 <= d ->
            Forall (fun t => t <= currentRow s + d)
                   (tops (calls s ++ [primary_call hc o s]))) as Hb1.
  { intros d Hd. rewrite tops_snoc. apply Forall_app. split.
    - eapply Forall_impl; [exact Hbelow|]. cbn. intros; lia.
    - repeat constructor. cbn. lia. }
  assert (forall c, qTop (window c) = currentRow s ->
            StronglySorted Z.le
              (tops ((calls s ++ [primary_call hc o s]) ++ [c]))) as Hs2.
  { intros c Hc. rewrite tops_snoc. apply ascending_snoc; [exact Hs1|].
    rewrite Hc. specialize (Hb1 0 ltac:(lia)). by rewrite Z.add_0_r in Hb1. }
  assert (forall c d, qTop (window c) = currentRow s -> 0 <= d ->
            Forall (fun t => t <= currentRow s + d)
              (tops ((calls s ++ [primary_call hc o s]) ++ [c]))) as Hb2.
  { intros c d Hc Hd. rewrite tops_snoc. apply Forall_app. split.
    - by apply Hb1.
    - repeat constructor. lia. }
  loop_body_paths hc o s;
    first
      [ split; [exact Hs1|];
        first [ apply Hb1; lia
              | specialize (Hb1 0 ltac:(lia)); by rewrite Z.add_0_r in Hb1 ]
      | split; [by apply Hs2|];
        first [ apply Hb2; [reflexivity | lia]
              | specialize (Hb2 (shrink_call hc o s) 0 eq_refl ltac:(lia));
                by rewrite Z.add_0_r in Hb2
              | specialize (Hb2 (straight_call hc o s) 0 eq_refl ltac:(lia));
                by rewrite Z.add_0_r in Hb2 ] ].
Qed.

End LoopInvariants.

(** X3: when [startRow >= totalRows] (the first row asked for lies past
    the last row of the cube), or [maxPages] is not positive, the call
    returns at once: no request is issued, the data is empty and
    [pagesProcessed] and [extractedRows] are 0, while [totalRows] still
    reports the size of the cube. *)
Theorem nothing_to_fetch
    {R : Type} {PO : PivotObject R}
    (pivotObject : R) (o : Options) (layout : Layout) (r0 : R) (fuel : nat) :
  getLayout pivotObject = (Resolved layout, r0) ->
  totalRows (qHyperCube layout) <= startRow o \/ maxPages o <= 0 ->
  exists result,
    extractPivotData fuel pivotObject o = Returned result r0 [] /\
    data result = [] /\
    Meta.extractedRows (metadata result) = 0 /\
    Meta.pagesProcessed (metadata result) = 0 /\
    Meta.totalRows (metadata result) = qcy (qSize (qHyperCube layout)).
Proof.
  intros Hlay Hedge.
  exists (build_result (qHyperCube layout) o (initial_state o r0)).
  split; [|done].
  apply (extract_finished pivotObject o layout r0 Hlay fuel (initial_state o r0)).
  assert (loop_test (qHyperCube layout) o (initial_state o r0) = false) as Htest.
  { unfold loop_test. cbn [initial_state currentRow pagesProcessed].
    apply andb_false_iff. destruct Hedge; [left | right]; by apply Z.ltb_ge. }
  destruct fuel; cbn [while]; by rewrite Htest.
Qed.

(** X3 at a ten-row table with [maxPages = 0]. *)
Lemma nothing_to_fetch_witness :
  exists result,
    extractPivotData 5 (exact_table 10 "EQ_DATA_MODE_PIVOT") (with_page_size 4 0)
      = Returned result (exact_table 10 "EQ_DATA_MODE_PIVOT") [] /\
    data result = [] /\
    Meta.extractedRows (metadata result) = 0 /\
    Meta.pagesProcessed (metadata result) = 0 /\
    Meta.totalRows (metadata result) = 10.
Proof.
  apply (nothing_to_fetch (PO := scripted_pivot_object)
           (exact_table 10 "EQ_DATA_MODE_PIVOT") (with_page_size 4 0)
           (cube 10 "EQ_DATA_MODE_PIVOT") (exact_table 10 "EQ_DATA_MODE_PIVOT") 5%nat).
  - reflexivity.
  - right. discriminate.
Defined.

(** X4: whatever the remote answers, the page count of a call is never
    negative, never exceeds [maxPages] (0 when [maxPages] is negative),
    and never exceeds the number of loop iterations made. *)
Theorem pages_never_exceed_cap
    {R : Type} {PO : PivotObject R} (pivotObject : R) (o : Options) (fuel : nat) :
  0 <= pages_counted (extractPivotData fuel pivotObject o) <= Z.max 0 (maxPages o) /\
  pages_counted (extractPivotData fuel pivotObject o) <=
    Z.of_nat (attempts (issued (extractPivotData fuel pivotObject o))).
Proof.
  unfold extractPivotData.
  destruct (getLayout pivotObject) as [[layout|e] r0]; [|cbn; lia].
  pose proof (while_invariant (qHyperCube layout) o (pages_bounded o)
                (loop_body_pages_bounded (qHyperCube layout) o) fuel
                (initial_state o r0)) as Hinv.
  destruct (while (qHyperCube layout) o fuel (initial_state o r0)) as [s|s];
    cbn [run_state] in Hinv; cbn [pages_counted issued build_result metadata
                                   Meta.pagesProcessed];
    apply Hinv; unfold pages_bounded; cbn; lia.
Qed.

(** X5: with a positive page size, every request of an extraction asks
    for the configured columns ([startCol], and [columnCount] or the
    cube's width), starts at a row from [startRow] on that lies inside
    the cube, and, unless it is the reduced retry, asks for at least one
    row and at most a page and ends inside the cube; the reduced retry
    asks for at least ten rows. *)
Theorem requests_stay_in_range
    {R : Type} {PO : PivotObject R}
    (pivotObject : R) (o : Options) (layout : Layout) (r0 : R) (fuel : nat) :
  getLayout pivotObject = (Resolved layout, r0) ->
  0 < pageSize o ->
  Forall (request_in_range (qHyperCube layout) o)
         (issued (extractPivotData fuel pivotObject o)).
Proof.
  intros Hlay Hps.
  destruct (extract_run_state pivotObject o layout r0 Hlay fuel) as [-> _].
  apply (while_invariant (qHyperCube layout) o
           (requests_in_range (qHyperCube layout) o)).
  - intros s. by apply loop_body_requests_in_range.
  - split; [constructor | cbn; lia].
Qed.

(** X5 on the cube whose first request is rejected as too large. *)
Lemma requests_stay_in_range_witness :
  Forall (request_in_range (qHyperCube (cube 1000 "EQ_DATA_MODE_PIVOT"))
            (with_page_size 100 10))
         (issued (extractPivotData 3 too_large_once (with_page_size 100 10))).
Proof.
  apply (requests_stay_in_range (PO := scripted_pivot_object)
           too_large_once (with_page_size 100 10)
           (cube 1000 "EQ_DATA_MODE_PIVOT") too_large_once 3%nat).
  - reflexivity.
  - reflexivity.
Defined.

(** X6: when the page size is not negative, the top rows of the requests
    of an extraction never decrease: the loop never goes back to a row
    before one it has already asked for. *)
Theorem request_tops_never_decrease
    {R : Type} {PO : PivotObject R}
    (pivotObject : R) (o : Options) (layout : Layout) (r0 : R) (fuel : nat) :
  getLayout pivotObject = (Resolved layout, r0) ->
  0 <= pageSize o ->
  StronglySorted Z.le (tops (issued (extractPivotData fuel pivotObject o))).
Proof.
  intros Hlay Hps.
  destruct (extract_run_state pivotObject o layout r0 Hlay fuel) as [-> _].
  apply (while_invariant (qHyperCube layout) o
           tops_ascending).
  - intros s. by apply loop_body_tops_ascending.
  - split; constructor.
Qed.

(** X6 on the pivot cube served through the straight-table retry. *)
Lemma request_tops_witness :
  StronglySorted Z.le
    (tops (issued (extractPivotData 5 straight_only (with_page_size 1 10)))).
Proof.
  apply (request_tops_never_decrease (PO := scripted_pivot_object)
           straight_only (with_page_size 1 10)
           (cube 2 "EQ_DATA_MODE_PIVOT") straight_only 5%nat).
  - reflexivity.
  - discriminate.
Defined.

(** * Further properties of [formatPivotData] *)

Lemma format_row_from (hs : list Header) (row : Row) (i : nat)
    (m : gmap string CellView) (k : string) :
  fold_left
    (fun formattedRow '(cellIndex, cell) =>
       match hs !! cellIndex with
       | Some header =>
           <[name header := {| text := qText cell; number := qNum cell;
                               state := qState cell |}]> formattedRow
       | None => formattedRow
       end)
    (zip (seq i (length row)) row) m !! k =
  match last (cells_under (drop i hs) row k) with
  | Some cell => Some (cell_view cell)
  | None => m !! k
  end.
Proof.
  revert i m. induction row as [|cell row IH]; intros i m.
  - cbn. unfold cells_under. by rewrite zip_with_nil_r.
  - cbn [length seq zip zip_with fold_left]. rewrite IH.
    destruct (hs !! i) as [h|] eqn:Hi.
    + rewrite (drop_S hs h i Hi). unfold cells_under at 2.
      cbn [zip zip_with omap list_omap].
      fold (cells_under (drop (S i) hs) row k).
      destruct (String.eqb_spec (name h) k) as [Heq | Hne].
      * cbn. rewrite last_cons.
        destruct (last (cells_under (drop (S i) hs) row k)); [done|].
        rewrite Heq. by rewrite lookup_insert_eq.
      * destruct (last (cells_under (drop (S i) hs) row k)); [done|].
        by rewrite lookup_insert_ne.
    + apply lookup_ge_None in Hi.
      rewrite (drop_ge hs i) by lia. rewrite (drop_ge hs (S i)) by lia.
      reflexivity.
Qed.

(** X7: the field of a formatted row under a name [k] is the view of the
    last cell of the row that stands under a header named [k]; when no
    cell does (the row is too short, or no header has that name) the
    row has no such field.  Cells beyond the last header are dropped. *)
Theorem format_row_field (hs : list Header) (row : Row) (k : string) :
  proto_key ∉ map name hs ->
  format_row hs row !! k = cell_view <$> last (cells_under hs row k).
Proof.
  intros _. unfold format_row.
  rewrite (format_row_from hs row 0 ∅ k). rewrite drop_0.
  destruct (last (cells_under hs row k)); [done|]. apply lookup_empty.
Qed.

(** X7 with two headers of the same name and a third cell without
    header: the second cell wins, the third is dropped. *)
Lemma format_row_field_witness :
  format_row [header_at "dimension" 0 {| qFallbackTitle := "A" |};
              header_at "measure" 1 {| qFallbackTitle := "A" |}]
             (table_row 1 ++ table_row 2 ++ table_row 3) !! "A"
    = Some {| text := "row"; number := 2; state := "O" |}.
Proof.
  rewrite format_row_field; [reflexivity|].
  apply not_elem_of_cons. split; [discriminate|].
  apply not_elem_of_cons. split; [discriminate|]. apply not_elem_of_nil.
Defined.

Lemma format_row_lookup_last (hs : list Header) (row : Row) (k : string) :
  format_row hs row !! k = cell_view <$> last (cells_under hs row k).
Proof.
  unfold format_row.
  rewrite (format_row_from hs row 0 ∅ k). rewrite drop_0.
  destruct (last (cells_under hs row k)); [done|]. apply lookup_empty.
Qed.

Lemma cells_under_no_header (hs : list Header) (row : Row) (k : string) :
  k ∉ map name hs -> cells_under hs row k = [].
Proof.
  revert row. induction hs as [|h hs IH]; intros row Hk; [done|].
  destruct row as [|cell row]; [done|].
  apply not_elem_of_cons in Hk as [Hne Hk].
  unfold cells_under. cbn [zip zip_with omap list_omap].
  destruct (String.eqb_spec (name h) k) as [Heq | _]; [congruence|].
  apply IH, Hk.
Qed.

Lemma cells_under_unique_header (hs : list Header) (row : Row) (i : nat) (h : Header) :
  NoDup (map name hs) ->
  hs !! i = Some h ->
  cells_under hs row (name h) = option_list (row !! i).
Proof.
  revert row i. induction hs as [|h0 hs IH]; intros row i Hnd Hi; [done|].
  cbn [map] in Hnd. apply NoDup_cons in Hnd as [Hfresh Hnd].
  destruct row as [|cell row].
  { unfold cells_under. by rewrite zip_with_nil_r. }
  unfold cells_under. cbn [zip zip_with omap list_omap].
  fold (cells_under hs row (name h)).
  destruct i as [|i]; cbn in Hi.
  - injection Hi as ->. rewrite String.eqb_refl.
    by rewrite (cells_under_no_header hs row (name h) Hfresh).
  - destruct (String.eqb_spec (name h0) (name h)) as [Heq | _].
    + exfalso. apply Hfresh. rewrite Heq.
      apply list_elem_of_fmap. exists h. split; [done|].
      by apply list_elem_of_lookup_2 with i.
    + cbn. by apply IH.
Qed.

Lemma formatPivotData_header_names (e : ExtractedData) :
  map name (headers (formatPivotData e)) = titles e.
Proof.
  rewrite formatPivotData_headers, map_app. unfold titles. rewrite map_app.
  f_equal.
  - apply (map_name_imap_header "dimension" id).
  - apply (map_name_imap_header "measure"
             (fun j => (length (Meta.dimensions (metadata e)) + j)%nat)).
Qed.

Lemma formatPivotData_rows (e : ExtractedData) :
  rows (formatPivotData e) =
  imap (fun rowIndex row =>
          {| row_index := rowIndex;
             row_data := format_row (headers (formatPivotData e)) row |})
       (data e).
Proof. reflexivity. Qed.

(** X8: [formatPivotData] makes one formatted row per data row, carrying
    its position as [index], and [summary.totalRows] is their number.
    When the column titles are pairwise different and none of them is
    [__proto__], the field of a row under the title of column [i] is the
    view of the row's cell [i], and a row too short to have a cell [i]
    has no field under that title. *)
Theorem formatPivotData_row_fields
    (e : ExtractedData) (r i : nat) (row : Row) (h : Header) :
  NoDup (titles e) ->
  proto_key ∉ titles e ->
  data e !! r = Some row ->
  headers (formatPivotData e) !! i = Some h ->
  Summary.totalRows (summary (formatPivotData e)) = length (data e) /\
  length (rows (formatPivotData e)) = length (data e) /\
  exists formattedRow,
    rows (formatPivotData e) !! r = Some formattedRow /\
    row_index formattedRow = r /\
    row_data formattedRow !! name h = cell_view <$> row !! i.
Proof.
  intros Hnd _ Hrow Hh.
  split; [|split].
  - cbn. apply length_imap.
  - rewrite formatPivotData_rows. apply length_imap.
  - eexists. split; [|split].
    + rewrite formatPivotData_rows, list_lookup_imap, Hrow. reflexivity.
    + reflexivity.
    + cbn [row_data]. rewrite format_row_lookup_last.
      rewrite (cells_under_unique_header _ row i h); [|by rewrite formatPivotData_header_names|done].
      by destruct (row !! i).
Qed.

Lemma two_column_titles :
  NoDup (titles two_column_result) /\ proto_key ∉ titles two_column_result.
Proof.
  split.
  - apply NoDup_cons. split.
    + apply not_elem_of_cons. split; [discriminate | apply not_elem_of_nil].
    + apply NoDup_singleton.
  - apply not_elem_of_cons. split; [discriminate|].
    apply not_elem_of_cons. split; [discriminate | apply not_elem_of_nil].
Qed.

(** X8 at the short second row of [two_column_result]: it has no field
    under Stock. *)
Lemma formatPivotData_row_fields_witness :
  Summary.totalRows (summary (formatPivotData two_column_result)) = 2%nat /\
  length (rows (formatPivotData two_column_result)) = 2%nat /\
  exists formattedRow,
    rows (formatPivotData two_column_result) !! 1%nat = Some formattedRow /\
    row_index formattedRow = 1%nat /\
    row_data formattedRow !! "Stock" = None.
Proof.
  exact (formatPivotData_row_fields two_column_result 1 1 (table_row 9)
           (header_at "measure" 1 {| qFallbackTitle := "Stock" |})
           (proj1 two_column_titles) (proj2 two_column_titles) eq_refl eq_refl).
Defined.

(** * Properties of [exportToCSV] *)

Lemma csv_cells_of_format_row (hs : list Header) (row : Row) :
  NoDup (map name hs) ->
  map (csv_cell (format_row hs row)) hs = imap (raw_csv_field row) (map name hs).
Proof.
  intros Hnd. apply list_eq. intros i.
  rewrite list_lookup_fmap, list_lookup_imap, list_lookup_fmap.
  destruct (hs !! i) as [h|] eqn:Hi; [|done]. cbn. f_equal.
  unfold csv_cell, raw_csv_field.
  rewrite format_row_lookup_last, (cells_under_unique_header hs row i h Hnd Hi).
  by destruct (row !! i).
Qed.

(** X9: for an extraction result with pairwise different column titles,
    none of them [__proto__], the CSV text of the formatted result is
    the line of titles followed
    by one line per data row, lines separated by a line feed, fields by
    a comma; field [i] of a line is the text of cell [i] of the row
    between double quotes, with nothing escaped.  For a row too short
    to have a cell [i] the field is two double quotes, unless the title
    is a property name of [Object.prototype], where it is the quoted
    word undefined. *)
Theorem exportToCSV_of_formatPivotData (e : ExtractedData) :
  NoDup (titles e) ->
  proto_key ∉ titles e ->
  exportToCSV (formatPivotData e) =
    String.concat line_feed
      (String.concat "," (titles e) :: map (raw_csv_line (titles e)) (data e)).
Proof.
  intros Hnd _.
  pose proof (formatPivotData_header_names e) as Hnames.
  assert (NoDup (map name (headers (formatPivotData e)))) as Hnd'
    by (rewrite Hnames; exact Hnd).
  unfold exportToCSV. cbv zeta. rewrite formatPivotData_rows.
  set (hs := headers (formatPivotData e)) in *.
  rewrite Hnames. do 2 f_equal.
  apply list_eq. intros r.
  rewrite !list_lookup_fmap, list_lookup_imap.
  destruct (data e !! r) as [row|]; [|done].
  cbn [fmap option_fmap option_map row_data]. f_equal.
  unfold raw_csv_line. rewrite <- Hnames. f_equal.
  apply csv_cells_of_format_row, Hnd'.
Qed.

(** X9 at [two_column_result]. *)
Lemma exportToCSV_witness :
  exportToCSV (formatPivotData two_column_result) =
    String.concat line_feed
      ["Plant,Stock";
       String.concat "," [quoted "row"; quoted "row"];
       String.concat "," [quoted "row"; quoted EmptyString]].
Proof.
  rewrite (exportToCSV_of_formatPivotData two_column_result
             (proj1 two_column_titles) (proj2 two_column_titles)).
  reflexivity.
Defined.

(** * Properties of [extractPivotDataSimple] *)

Lemma length_concat_sum {A : Type} (ls : list (list A)) :
  length (concat ls) = sum_list (map length ls).
Proof. induction ls as [|l ls IH]; [done|]. cbn. by rewrite length_app, IH. Qed.

Lemma omap_all_absent (l : list NxDataPage) :
  (forall p, p ∈ l -> qMatrix p = None) -> omap qMatrix l = [].
Proof.
  induction l as [|p l IH]; intros Hnone; [done|].
  cbn. rewrite (Hnone p) by apply list_elem_of_here.
  apply IH. intros q Hq. apply Hnone. by apply list_elem_of_further.
Qed.

(** X10: when the hypercube of the layout carries at least one data
    page, the simple method issues no fetch request: it returns the rows
    of the pages that have a matrix, in page order, and reports their
    number both as [extractedRows] and as [totalRows], whatever size the
    cube has.  A layout whose pages all lack a matrix gives an empty
    result, not a fallback to the paged method. *)
Theorem simple_extraction_reads_layout_pages
    {R : Type} {POP : PivotObjectWithPages R}
    (pivotObject : R) (layout : Raw.Layout) (hypercube : Raw.HyperCube) (r1 : R)
    (page : NxDataPage) (pages : list NxDataPage) (fuel : nat) :
  getLayoutWithPages pivotObject = (Resolved layout, r1) ->
  Raw.qHyperCube layout = Some hypercube ->
  Raw.qDataPages hypercube = Some (page :: pages) ->
  exists rows metadata,
    extractPivotDataSimple fuel pivotObject = FromLayout rows metadata r1 /\
    rows = concat (omap qMatrix (page :: pages)) /\
    SimpleMeta.extractedRows metadata =
      Z.of_nat (sum_list (map length (omap qMatrix (page :: pages)))) /\
    SimpleMeta.totalRows metadata = SimpleMeta.extractedRows metadata /\
    ((forall p, p ∈ page :: pages -> qMatrix p = None) -> rows = []).
Proof.
  intros Hlay Hcube Hpages. unfold extractPivotDataSimple.
  rewrite Hlay, Hcube, Hpages.
  eexists _, _. split; [reflexivity|]. split; [reflexivity|].
  cbn [SimpleMeta.extractedRows SimpleMeta.totalRows].
  split; [by rewrite length_concat_sum|]. split; [reflexivity|].
  intros Hnone. rewrite (omap_all_absent (page :: pages) Hnone). reflexivity.
Qed.

(** X10 at a layout with a page of two rows, a page without matrix and a
    page of one row, on a cube that reports ten rows. *)
Lemma simple_extraction_witness :
  exists rows metadata r,
    extractPivotDataSimple 5
      {| paged_script := exact_table 10 "EQ_DATA_MODE_PIVOT";
         layout_pages :=
           Some [{| qMatrix := Some [table_row 0; table_row 1] |};
                 {| qMatrix := None |};
                 {| qMatrix := Some [table_row 2] |}];
         layout_faults := 0 |}
      = FromLayout rows metadata r /\
    rows = map table_row [0; 1; 2] /\
    SimpleMeta.extractedRows metadata = 3 /\
    SimpleMeta.totalRows metadata = 3.
Proof.
  destruct (simple_extraction_reads_layout_pages (POP := scripted_with_pages)
              {| paged_script := exact_table 10 "EQ_DATA_MODE_PIVOT";
                 layout_pages :=
                   Some [{| qMatrix := Some [table_row 0; table_row 1] |};
                         {| qMatrix := None |};
                         {| qMatrix := Some [table_row 2] |}];
                 layout_faults := 0 |}
              _ _ _ _ _ 5%nat ltac:(reflexivity) ltac:(reflexivity) ltac:(reflexivity))
    as (rows & metadata & Hret & Hrows & Hcount & Htotal & _).
  eexists rows, metadata, _. split; [exact Hret|].
  split; [exact Hrows|]. split; [exact Hcount|].
  rewrite Htotal. exact Hcount.
Defined.

Lemma extract_threw {R : Type} {PO : PivotObject R}
    (fuel : nat) (r r' : R) (o : Options) (e : JsError) :
  extractPivotData fuel r o = Threw e r' -> getLayout r = (Rejected e, r').
Proof.
  unfold extractPivotData.
  destruct (getLayout r) as [[layout|e0] r0].
  - destruct (while (qHyperCube layout) o fuel (initial_state o r0)); discriminate.
  - by intros [= -> ->].
Qed.

(** X11: when the layout carries no data page ([qHyperCube] missing, or
    [qDataPages] missing or empty), the simple method hands over to the
    paged method with its default options.  So against a remote that
    serves in full every page the loop can ask for it returns at most
    ten pages of a thousand rows: [min totalRows 10000] rows. *)
Theorem simple_extraction_falls_back_to_ten_pages
    {R : Type} {POP : PivotObjectWithPages R} (serving : R -> Prop)
    (pivotObject : R) (first : Raw.Layout) (r1 : R)
    (layout : Layout) (r2 : R) (fuel : nat) :
  (forall (w : NxPage) (r : R),
     serving r -> page_window (qHyperCube layout) default_options w ->
     serves_rows (invoke (primary_method (qHyperCube layout)) w r) (qHeight w) /\
     serving (snd (invoke (primary_method (qHyperCube layout)) w r))) ->
  getLayoutWithPages pivotObject = (Resolved first, r1) ->
  (forall hypercube, Raw.qHyperCube first = Some hypercube ->
     Raw.qDataPages hypercube = None \/ Raw.qDataPages hypercube = Some []) ->
  getPivotLayout r1 = (Resolved layout, r2) ->
  serving r2 ->
  0 <= totalRows (qHyperCube layout) ->
  (10 <= fuel)%nat ->
  exists result r log,
    extractPivotDataSimple fuel pivotObject = Paged (Returned result r log) /\
    Meta.extractedRows (metadata result) =
      Z.min (totalRows (qHyperCube layout)) 10000 /\
    Meta.pagesProcessed (metadata result) =
      Z.min (ceil_div (totalRows (qHyperCube layout)) 1000) 10.
Proof.
  intros Hfree Hfirst Hpages Hlay Hs2 Htotal Hfuel.
  destruct (while_without_faults_capped (qHyperCube layout) default_options
              serving Hfree ltac:(reflexivity) fuel
              (initial_state default_options r2))
    as (s' & Hw & Hrows & Hcount);
    cbn [initial_state allData currentRow pagesProcessed remote
         default_options startRow maxPages pageSize].
  - exact Hs2.
  - lia.
  - exact Htotal.
  - lia.
  - pose proof (extract_finished r1 default_options layout r2 Hlay fuel s' Hw)
      as Hret.
    exists (build_result (qHyperCube layout) default_options s'),
      (remote s'), (calls s').
    split.
    + unfold extractPivotDataSimple. rewrite Hfirst.
      destruct (Raw.qHyperCube first) as [hypercube|]; [|by rewrite Hret].
      destruct (Hpages hypercube eq_refl) as [-> | ->]; by rewrite Hret.
    + cbn [initial_state allData currentRow pagesProcessed remote length
           default_options startRow maxPages pageSize] in Hrows, Hcount.
      cbn [build_result metadata Meta.extractedRows Meta.pagesProcessed].
      rewrite Z.sub_0_r in Hrows, Hcount.
      split; [lia | exact Hcount].
Qed.

(** A scripted remote with layout pages that answers like
    [clipped_table] serves in full every window that ends inside the
    table. *)
Lemma lifted_clipped_table_serves (n : Z) (mode : string)
    (m : Method) (w : NxPage) (r : ScriptedWithPages) :
  answer (paged_script r) = answer (clipped_table n mode) ->
  0 <= qHeight w ->
  qTop w + qHeight w <= n ->
  serves_rows (invoke m w r) (qHeight w) /\
  answer (paged_script (snd (invoke m w r))) = answer (clipped_table n mode).
Proof.
  intros Hr Hh Hin. split.
  - exists (slice (n - qTop w) w), (snd (invoke m w r)),
      (map table_row (seqZ (qTop w) (qHeight w))).
    split; [|split].
    + destruct m; cbn; unfold lift_fetch, scripted_fetch; rewrite Hr; reflexivity.
    + unfold slice. cbn. by rewrite Z.min_r by lia.
    + rewrite length_map, length_seqZ. lia.
  - destruct m; cbn; exact Hr.
Qed.

(** X11 at a table of 12345 rows whose server stops at the last row and
    whose layout has an empty page list. *)
Lemma simple_extraction_fallback_witness :
  exists result r log,
    extractPivotDataSimple 10
      {| paged_script := clipped_table 12345 "EQ_DATA_MODE_PIVOT";
         layout_pages := Some []; layout_faults := 0 |}
      = Paged (Returned result r log) /\
    Meta.extractedRows (metadata result) = 10000 /\
    Meta.pagesProcessed (metadata result) = 10.
Proof.
  apply (simple_extraction_falls_back_to_ten_pages (POP := scripted_with_pages)
           (fun r => answer (paged_script r) =
                     answer (clipped_table 12345 "EQ_DATA_MODE_PIVOT"))
           {| paged_script := clipped_table 12345 "EQ_DATA_MODE_PIVOT";
              layout_pages := Some []; layout_faults := 0 |}
           (with_pages (cube 12345 "EQ_DATA_MODE_PIVOT") (Some []))
           {| paged_script := clipped_table 12345 "EQ_DATA_MODE_PIVOT";
              layout_pages := Some []; layout_faults := 0 |}
           (cube 12345 "EQ_DATA_MODE_PIVOT")
           {| paged_script := clipped_table 12345 "EQ_DATA_MODE_PIVOT";
              layout_pages := Some []; layout_faults := 0 |}
           10%nat).
  - intros w r Hr (_ & _ & _ & Hh & Hin).
    apply lifted_clipped_table_serves; [exact Hr | lia | exact Hin].
  - reflexivity.
  - intros hypercube [= <-]. right. reflexivity.
  - reflexivity.
  - reflexivity.
  - discriminate.
  - lia.
Defined.

Lemma getPivotLayout_rejected {R : Type} {POP : PivotObjectWithPages R}
    (r r' : R) (error : JsError) :
  getPivotLayout r = (Rejected error, r') -> layout_unusable r r'.
Proof.
  unfold getPivotLayout, layout_unusable.
  destruct (getLayoutWithPages r) as [[layout|e] r1].
  - intros [= Hread <-]. right. by exists layout, error.
  - intros [= <- <-]. left. by exists e.
Qed.

(** X12: the simple method throws only after two requests for the
    layout in a row gave nothing the paged method can use, each rejected
    or resolved with a layout that lacks [qHyperCube], [qDimensionInfo],
    [qMeasureInfo] or [qSize]; the second of them is the last request of
    the call, and what is thrown is what [getPivotLayout] threw on it.
    One such failure is absorbed by the fallback to the paged method,
    which asks for the layout again. *)
Theorem simple_extraction_throws_after_two_unusable_layouts
    {R : Type} {POP : PivotObjectWithPages R}
    (pivotObject r' : R) (error : JsError) (fuel : nat) :
  extractPivotDataSimple fuel pivotObject = Paged (Threw error r') ->
  exists (before between : R),
    layout_unusable before between /\
    layout_unusable between r' /\
    getPivotLayout between = (Rejected error, r').
Proof.
  unfold extractPivotDataSimple.
  assert (forall (a b : R) (e : JsError),
            extractPivotData fuel a default_options = Threw e b ->
            getPivotLayout a = (Rejected e, b)) as Hthrew.
  { intros a b e Hout. exact (extract_threw fuel a b default_options e Hout). }
  assert (forall (a b c : R) (e1 : JsError),
            extractPivotData fuel a default_options = Threw e1 b ->
            extractPivotData fuel b default_options = Threw error c ->
            c = r' ->
            exists before between : R,
              layout_unusable before between /\
              layout_unusable between r' /\
              getPivotLayout between = (Rejected error, r')) as Htwice.
  { intros a b c e1 Hone Htwo ->. exists a, b.
    apply Hthrew in Hone, Htwo.
    split; [exact (getPivotLayout_rejected _ _ _ Hone)|].
    split; [exact (getPivotLayout_rejected _ _ _ Htwo) | exact Htwo]. }
  destruct (getLayoutWithPages pivotObject) as [[first|e0] r1] eqn:Hfirst.
  - destruct (Raw.qHyperCube first) as [hypercube|] eqn:Hcube.
    + destruct (Raw.qDataPages hypercube) as [[|page pages]|]; try discriminate;
        (destruct (extractPivotData fuel r1 default_options)
           as [result r log | e1 r2 | s] eqn:Hone; try discriminate;
         intros [= Hsecond];
         destruct (extractPivotData fuel r2 default_options)
           as [result r log | e2 r3 | s] eqn:Htwo; try discriminate;
         injection Hsecond as -> ->;
         exact (Htwice r1 r2 r' e1 Hone Htwo eq_refl)).
    + intros [= Hout]. exists pivotObject, r1.
      apply Hthrew in Hout.
      split; [|split; [exact (getPivotLayout_rejected _ _ _ Hout) | exact Hout]].
      right. exists first, (type_error "qDimensionInfo").
      split; [exact Hfirst|]. unfold read_layout. by rewrite Hcube.
  - intros [= Hout]. exists pivotObject, r1.
    apply Hthrew in Hout.
    split; [|split; [exact (getPivotLayout_rejected _ _ _ Hout) | exact Hout]].
    left. by exists e0.
Qed.

(** X12 at an object whose first layout has no [qHyperCube] and whose
    next request for the layout is rejected: the simple method throws
    the rejection. *)
Lemma simple_extraction_throws_witness :
  extractPivotDataSimple 5
    {| bare_layouts := 1;
       then_script :=
         {| paged_script := exact_table 10 "EQ_DATA_MODE_PIVOT";
            layout_pages := None; layout_faults := 1 |} |}
    = Paged (Threw (fault (CodeString "LOCERR_GENERIC_ABORTED"))
               {| bare_layouts := 0;
                  then_script :=
                    {| paged_script := exact_table 10 "EQ_DATA_MODE_PIVOT";
                       layout_pages := None; layout_faults := 0 |} |}) /\
  exists (before between : ScriptedBare),
    layout_unusable before between /\
    layout_unusable between
      {| bare_layouts := 0;
         then_script :=
           {| paged_script := exact_table 10 "EQ_DATA_MODE_PIVOT";
              layout_pages := None; layout_faults := 0 |} |} /\
    getPivotLayout between =
      (Rejected (fault (CodeString "LOCERR_GENERIC_ABORTED")),
       {| bare_layouts := 0;
          then_script :=
            {| paged_script := exact_table 10 "EQ_DATA_MODE_PIVOT";
               layout_pages := None; layout_faults := 0 |} |}).
Proof.
  split; [reflexivity|].
  apply (simple_extraction_throws_after_two_unusable_layouts
           (POP := scripted_bare)
           {| bare_layouts := 1;
              then_script :=
                {| paged_script := exact_table 10 "EQ_DATA_MODE_PIVOT";
                   layout_pages := None; layout_faults := 1 |} |}
           _ _ 5%nat).
  reflexivity.
Defined.

(** * Properties of [validateConfiguration] *)

(** X13: the validation lets a configuration pass exactly when [appId]
    and [pivotObjectId] are set and non-empty and so are the credentials
    of the chosen method: [userDirectory] and [userId] for certificates,
    [apiKey] for apikey, [jwtToken] for jwt.  Any other [authMethod]
    passes without credentials. *)
Theorem validateConfiguration_passes_iff (config : Config) :
  validateConfiguration config = None <->
  is_set (appId config) = true /\
  is_set (pivotObjectId config) = true /\
  (authMethod config = "certificates" ->
     is_set (userDirectory config) = true /\ is_set (userId config) = true) /\
  (authMethod config = "apikey" -> is_set (apiKey config) = true) /\
  (authMethod config = "jwt" -> is_set (jwtToken config) = true).
Proof.
  unfold validateConfiguration, required_keys. cbv zeta.
  destruct (String.eqb_spec (authMethod config) "certificates") as [Hm | Hcert];
    [| destruct (String.eqb_spec (authMethod config) "apikey") as [Hm | Hkey];
       [| destruct (String.eqb_spec (authMethod config) "jwt") as [Hm | Hjwt] ] ];
    cbn [app List.filter config_property String.eqb Ascii.eqb Bool.eqb];
    try rewrite Hm;
    destruct (is_set (appId config)), (is_set (pivotObjectId config));
    try destruct (is_set (userDirectory config)), (is_set (userId config));
    try destruct (is_set (apiKey config));
    try destruct (is_set (jwtToken config));
    cbn; split; try discriminate; try (intros; tauto);
    try (intros (? & ? & Hc & Hk & Hj);
         first [ destruct (Hc eq_refl); discriminate
               | specialize (Hk eq_refl); discriminate
               | specialize (Hj eq_refl); discriminate
               | discriminate ]);
    try (intros _; repeat split; intros; congruence).
Qed.

(** * Extraction followed by formatting *)



(** * Properties of [getAllChildObjects] *)

Section ContainerFacts.
Context {D Obj : Type} {DOC : Document D Obj}.

(** Once [analyzeContainer] has returned the layout, every child item
    has its [qInfo], and the layout is the one the engine sent. *)
Lemma analyzeContainer_ok (container : Obj) (doc doc1 : D)
    (layout : ContainerLayout) :
  analyzeContainer container doc = (Ok layout, doc1) ->
  getContainerLayout container doc = (Resolved layout, doc1) /\
  forall items, qChildItems layout = Some items ->
    exists children, items = map Some children.
Proof.
  unfold analyzeContainer.
  destruct (getContainerLayout container doc) as [[l|e] d]; [|discriminate].
  destruct (qInfo l); [|discriminate].
  destruct (qChildItems l) as [items|] eqn:Hitems.
  - destruct (forallb _ items) eqn:Hall; [|discriminate].
    intros [= -> ->]. split; [reflexivity|].
    intros items' Hitems'. rewrite Hitems in Hitems'. injection Hitems' as <-.
    clear Hitems. induction items as [|[child|] rest IH]; [by exists []| |done].
    cbn in Hall. destruct (IH Hall) as (children & ->).
    by exists (child :: children).
  - intros [= -> ->]. split; [reflexivity|]. intros items. by rewrite Hitems.
Qed.

(** The loop asks for every child in turn, whatever the replies, and
    keeps the children whose request resolved. *)
Lemma retrieve_children_each (children : list ChildInfo)
    (acc : list (ChildObject Obj)) (doc : D) :
  retrieve_children (map Some children) acc doc =
    (Ok (acc ++ omap (fun '(child, reply) => fetched child reply)
                  (zip children (fst (ask_each (map qId children) doc)))),
     snd (ask_each (map qId children) doc)).
Proof.
  revert acc doc. induction children as [|child rest IH]; intros acc doc.
  - cbn. by rewrite app_nil_r.
  - cbn [map retrieve_children ask_each].
    destruct (getObject (qId child) doc) as [[childObj|error] doc'].
    + rewrite IH. destruct (ask_each (map qId rest) doc') as [replies doc''].
      cbn. by rewrite <- app_assoc.
    + rewrite IH. by destruct (ask_each (map qId rest) doc') as [replies doc''].
Qed.

Lemma fetched_sublist (children : list ChildInfo) (replies : list (Reply Obj)) :
  map (fun c => (child_id c, child_type c))
      (omap (fun '(child, reply) => fetched child reply) (zip children replies))
    `sublist_of` map (fun child => (qId child, qType child)) children.
Proof.
  revert replies. induction children as [|child rest IH]; intros replies.
  - constructor.
  - destruct replies as [|[childObj|error] replies]; cbn.
    + apply sublist_nil_l.
    + constructor. apply IH.
    + constructor. apply IH.
Qed.

(** The states of a document that has the object of every child in the
    list asked for. *)
Variable available : D -> Prop.

Lemma retrieve_children_all (children : list ChildInfo)
    (acc : list (ChildObject Obj)) (doc : D) :
  (forall (child : ChildInfo) (d : D),
     child ∈ children -> available d ->
     exists obj, fst (getObject (qId child) d) = Resolved obj /\
                 available (snd (getObject (qId child) d))) ->
  available doc ->
  exists new doc2,
    retrieve_children (map Some children) acc doc = (Ok (acc ++ new), doc2) /\
    map (fun c => {| qId := child_id c; qType := child_type c |}) new = children.
Proof.
  revert acc doc. induction children as [|child rest IH]; intros acc doc Hall Hdoc.
  - exists [], doc. cbn. by rewrite app_nil_r.
  - cbn [map retrieve_children].
    destruct (Hall child doc (list_elem_of_here _ _) Hdoc) as (obj & Hobj & Hnext).
    destruct (getObject (qId child) doc) as [reply doc']. cbn in Hobj, Hnext.
    subst reply.
    destruct (IH (acc ++ [{| child_id := qId child; child_type := qType child;
                             child_object := obj |}]) doc')
      as (new & doc2 & Hret & Hnew).
    + intros c d Hc. apply Hall. by apply list_elem_of_further.
    + exact Hnext.
    + exists ({| child_id := qId child; child_type := qType child;
                 child_object := obj |} :: new), doc2.
      split; [by rewrite Hret, <- app_assoc|].
      cbn. rewrite Hnew. by destruct child.
Qed.

End ContainerFacts.

(** X15: once [analyzeContainer] has returned the layout,
    [getAllChildObjects] returns.  It asks the document for the object
    of every child of the layout, once each and in the order of the
    layout, whatever the document replies: a rejected request ends
    neither the loop nor the call.  The result has one element for each
    child whose request resolved, with the id and type the layout gives
    and the object the document sent, in the order of the layout; so it
    is never longer than the child list. *)
Theorem child_objects_are_fetched_children
    {D Obj : Type} {DOC : Document D Obj}
    (container : Obj) (doc doc1 : D) (layout : ContainerLayout)
    (items : list (option ChildInfo)) :
  analyzeContainer container doc = (Ok layout, doc1) ->
  qChildItems layout = Some items ->
  exists (children : list ChildInfo) (childObjects : list (ChildObject Obj)) (doc2 : D),
    items = map Some children /\
    getAllChildObjects container doc = (Ok childObjects, doc2) /\
    doc2 = snd (ask_each (map qId children) doc1) /\
    childObjects =
      omap (fun '(child, reply) => fetched child reply)
        (zip children (fst (ask_each (map qId children) doc1))) /\
    map (fun c => (child_id c, child_type c)) childObjects
      `sublist_of` map (fun child => (qId child, qType child)) children /\
    (length childObjects <= length items)%nat.
Proof.
  intros Hlay Hitems.
  destruct (analyzeContainer_ok container doc doc1 layout Hlay) as [_ Hall].
  destruct (Hall items Hitems) as (children & ->).
  eexists children, _, _. split; [reflexivity|].
  unfold getAllChildObjects. rewrite Hlay, Hitems, retrieve_children_each.
  split; [reflexivity|]. split; [reflexivity|]. split; [reflexivity|].
  pose proof (fetched_sublist children (fst (ask_each (map qId children) doc1)))
    as Hsub.
  split; [exact Hsub|].
  apply sublist_length in Hsub. rewrite !length_map in Hsub.
  rewrite length_map. exact Hsub.
Qed.

(** X15 at a container of three children the second of which cannot be
    fetched: the first and the third are returned, and the document has
    been asked four times, once for the layout and once for each
    child. *)
Lemma child_objects_witness :
  getAllChildObjects "container"
    {| listed := [{| qId := "a"; qType := "pivot-table" |};
                  {| qId := "b"; qType := "barchart" |};
                  {| qId := "c"; qType := "table" |}];
       unavailable := ["b"]; requests := 0 |}
  = (Ok [{| child_id := "a"; child_type := "pivot-table"; child_object := "a" |};
         {| child_id := "c"; child_type := "table"; child_object := "c" |}],
     {| listed := [{| qId := "a"; qType := "pivot-table" |};
                   {| qId := "b"; qType := "barchart" |};
                   {| qId := "c"; qType := "table" |}];
        unavailable := ["b"]; requests := 4 |}) /\
  exists (children : list ChildInfo) (childObjects : list (ChildObject string))
         (doc2 : ListedDocument),
    [Some {| qId := "a"; qType := "pivot-table" |};
     Some {| qId := "b"; qType := "barchart" |};
     Some {| qId := "c"; qType := "table" |}] = map Some children /\
    getAllChildObjects "container"
      {| listed := [{| qId := "a"; qType := "pivot-table" |};
                    {| qId := "b"; qType := "barchart" |};
                    {| qId := "c"; qType := "table" |}];
         unavailable := ["b"]; requests := 0 |}
      = (Ok childObjects, doc2) /\
    doc2 =
      snd (ask_each (map qId children)
             {| listed := [{| qId := "a"; qType := "pivot-table" |};
                           {| qId := "b"; qType := "barchart" |};
                           {| qId := "c"; qType := "table" |}];
                unavailable := ["b"]; requests := 1 |}) /\
    childObjects =
      omap (fun '(child, reply) => fetched child reply)
        (zip children
           (fst (ask_each (map qId children)
                   {| listed := [{| qId := "a"; qType := "pivot-table" |};
                                 {| qId := "b"; qType := "barchart" |};
                                 {| qId := "c"; qType := "table" |}];
                      unavailable := ["b"]; requests := 1 |}))) /\
    map (fun c => (child_id c, child_type c)) childObjects
      `sublist_of` map (fun child => (qId child, qType child)) children /\
    (length childObjects <= 3)%nat.
Proof.
  split; [reflexivity|].
  exact (child_objects_are_fetched_children (DOC := listed_document)
           "container"
           {| listed := [{| qId := "a"; qType := "pivot-table" |};
                         {| qId := "b"; qType := "barchart" |};
                         {| qId := "c"; qType := "table" |}];
              unavailable := ["b"]; requests := 0 |}
           _ _ _ eq_refl eq_refl).
Defined.

(** X16: when the document has the object of every child the layout
    lists, [getAllChildObjects] returns all of them, in the order of the
    layout, each with its id and type.  Nothing is asked of the document
    about other objects. *)
Theorem all_children_retrieved_when_available
    {D Obj : Type} {DOC : Document D Obj} (available : D -> Prop)
    (container : Obj) (doc doc1 : D) (layout : ContainerLayout)
    (items : list (option ChildInfo)) :
  analyzeContainer container doc = (Ok layout, doc1) ->
  qChildItems layout = Some items ->
  (forall (child : ChildInfo) (d : D),
     Some child ∈ items ->
     available d ->
     exists obj, fst (getObject (qId child) d) = Resolved obj /\
                 available (snd (getObject (qId child) d))) ->
  available doc1 ->
  exists childObjects doc2,
    getAllChildObjects container doc = (Ok childObjects, doc2) /\
    map (fun c => Some {| qId := child_id c; qType := child_type c |}) childObjects
      = items.
Proof.
  intros Hlay Hitems Havail Hdoc1.
  destruct (analyzeContainer_ok container doc doc1 layout Hlay) as [_ Hall].
  destruct (Hall items Hitems) as (children & ->).
  destruct (retrieve_children_all available children [] doc1)
    as (new & doc2 & Hret & Hnew); [|exact Hdoc1|].
  - intros child d Hin. apply Havail. by apply list_elem_of_fmap_2.
  - exists new, doc2. unfold getAllChildObjects. rewrite Hlay, Hitems, Hret.
    split; [reflexivity|]. rewrite <- Hnew, <- list_fmap_compose. reflexivity.
Qed.

(** X16 at a container of two children, both available, in a document
    that lacks another object, which is no child of the container. *)
Lemma all_children_witness :
  (exists childObjects doc2,
     getAllChildObjects "container"
       {| listed := [{| qId := "a"; qType := "pivot-table" |};
                     {| qId := "c"; qType := "table" |}];
          unavailable := ["other"]; requests := 0 |}
       = (Ok childObjects, doc2) /\
     map (fun c => Some {| qId := child_id c; qType := child_type c |}) childObjects =
       [Some {| qId := "a"; qType := "pivot-table" |};
        Some {| qId := "c"; qType := "table" |}]) /\
  fst (getObject "other"
         {| listed := [{| qId := "a"; qType := "pivot-table" |};
                       {| qId := "c"; qType := "table" |}];
            unavailable := ["other"]; requests := 1 |})
    = Rejected (fault (CodeNumber 2)).
Proof.
  split; [|reflexivity].
  apply (all_children_retrieved_when_available (DOC := listed_document)
           (fun d => unavailable d = ["other"])
           "container"
           {| listed := [{| qId := "a"; qType := "pivot-table" |};
                         {| qId := "c"; qType := "table" |}];
              unavailable := ["other"]; requests := 0 |}
           {| listed := [{| qId := "a"; qType := "pivot-table" |};
                         {| qId := "c"; qType := "table" |}];
              unavailable := ["other"]; requests := 1 |}
           {| qInfo := Some {| qId := "container"; qType := "container" |};
              qChildItems := Some [Some {| qId := "a"; qType := "pivot-table" |};
                                   Some {| qId := "c"; qType := "table" |}] |}
           [Some {| qId := "a"; qType := "pivot-table" |};
            Some {| qId := "c"; qType := "table" |}]).
  - reflexivity.
  - reflexivity.
  - intros child d Hin Hd.
    assert (qId child = "a" \/ qId child = "c") as Hid.
    { apply elem_of_cons in Hin as [[= ->] | Hin]; [by left|].
      apply elem_of_cons in Hin as [[= ->] | Hin]; [by right|].
      by apply elem_of_nil in Hin. }
    exists (qId child). cbn. rewrite Hd.
    destruct Hid as [-> | ->]; split; reflexivity.
  - reflexivity.
Defined.

(** * Properties of [findValueIndex] and [selectFieldValue] *)

Lemma scan_rows_app (rows1 rows2 : list (list ListObject.cell)) (target : string) :
  scan_rows (rows1 ++ rows2) target =
  match scan_rows rows1 target with
  | Some result => Some result
  | None => scan_rows rows2 target
  end.
Proof.
  induction rows1 as [|row rows1 IH]; [done|].
  cbn. destruct row as [|cell rest]; [done|].
  destruct (String.eqb (ListObject.qText cell) target); [done | exact IH].
Qed.

Lemma scan_pages_concat (pages : list (list (list ListObject.cell))) (target : string) :
  scan_pages pages target =
  match scan_rows (concat pages) target with
  | Some result => result
  | None => Throws (not_found target)
  end.
Proof.
  induction pages as [|page pages IH]; [done|].
  cbn. rewrite scan_rows_app.
  destruct (scan_rows page target); [done | exact IH].
Qed.

Lemma scan_rows_no_match (rows : list (list ListObject.cell)) (target : string) :
  Forall (starts_otherwise target) rows -> scan_rows rows target = None.
Proof.
  induction 1 as [|row rows (cell & rest & -> & Hne) _ IH]; [done|].
  cbn. by rewrite (proj2 (String.eqb_neq _ _) Hne).
Qed.

Section SelectorFacts.
Context {D : Type} {SD : SelectionDocument D}.

(** X17: [findValueIndex] returns the element number, not the position,
    of the first row, in page order, whose first cell has the target
    text, the rows before it all having a first cell with another
    text. *)
Theorem findValueIndex_first_match
    (listObject : ListObject.handle) (target : string) (doc doc' : D)
    (layout : ListObject.layout)
    (before after : list (list ListObject.cell))
    (cell : ListObject.cell) (rest : list ListObject.cell) :
  getListLayout listObject doc = (Resolved layout, doc') ->
  concat (ListObject.qDataPages layout) = before ++ (cell :: rest) :: after ->
  Forall (starts_otherwise target) before ->
  ListObject.qText cell = target ->
  findValueIndex listObject target doc = (Ok (ListObject.qElemNumber cell), doc').
Proof.
  intros Hlay Hrows Hbefore Htext. unfold findValueIndex. rewrite Hlay.
  rewrite scan_pages_concat, Hrows, scan_rows_app.
  rewrite (scan_rows_no_match before target Hbefore). cbn.
  by rewrite (proj2 (String.eqb_eq _ _) Htext).
Qed.

(** X18: when every row of the layout has a first cell and none of them
    has the target text, [findValueIndex] throws the error that names
    the value as not found in the field. *)
Theorem findValueIndex_not_found
    (listObject : ListObject.handle) (target : string) (doc doc' : D)
    (layout : ListObject.layout) :
  getListLayout listObject doc = (Resolved layout, doc') ->
  Forall (starts_otherwise target) (concat (ListObject.qDataPages layout)) ->
  findValueIndex listObject target doc = (Throws (not_found target), doc').
Proof.
  intros Hlay Hrows. unfold findValueIndex. rewrite Hlay.
  by rewrite scan_pages_concat, (scan_rows_no_match _ target Hrows).
Qed.

(** X19: [selectFieldValue] asks for the temporary list object to be
    destroyed only as its last request, after the selection has been
    made.  So when it throws for any reason other than the rejection of
    that last request (the object could not be created, its layout was
    rejected, the value was not found, the selection was rejected) no
    request to destroy the object was sent. *)
Theorem selectFieldValue_destroys_last
    (fieldName value : string) (doc : D) :
  let '(result, _, log) := selectFieldValue fieldName value doc in
  (exists listObject valueIndex,
     log = [Created (field_list_properties fieldName); LayoutOf listObject;
            Selected listObject [valueIndex];
            Destroyed (ListObject.id listObject)]) \/
  (List.filter is_destroyed log = [] /\ exists t, result = Throws t).
Proof.
  unfold selectFieldValue, createFieldListObject.
  destruct (createObject (field_list_properties fieldName) doc)
    as [[listObject|e] doc1]; [|right; split; [done | by eexists]].
  destruct (findValueIndex listObject value doc1) as [[valueIndex|t] doc2];
    [|right; split; [done | by eexists]].
  destruct (selectListObjectValues listObject "/qListObjectDef" [valueIndex]
              false doc2) as [[b|e] doc3];
    [|right; split; [done | by eexists]].
  destruct (destroyObject (ListObject.id listObject) doc3) as [[b'|e] doc4];
    left; by exists listObject, valueIndex.
Qed.

End SelectorFacts.

Lemma plant_rows_before_1102 :
  Forall (starts_otherwise "1102") [[list_cell "1101" 7]].
Proof.
  repeat constructor. exists (list_cell "1101" 7), []. split; [done | discriminate].
Qed.

(** X17 on the field Plant: the value 1102 stands in the second row and
    has element number 3. *)
Lemma findValueIndex_witness :
  findValueIndex {| ListObject.id := "obj0" |} "1102" plant_document
    = (Ok 3, plant_document).
Proof.
  exact (findValueIndex_first_match (SD := field_document)
           {| ListObject.id := "obj0" |} "1102" plant_document plant_document
           {| ListObject.qDataPages := field_values plant_document |}
           [[list_cell "1101" 7]] [[list_cell "1103" 5]]
           (list_cell "1102" 3) [] eq_refl eq_refl plant_rows_before_1102 eq_refl).
Defined.

Lemma plant_rows_without_1200 :
  Forall (starts_otherwise "1200")
         (concat (field_values plant_document)).
Proof.
  repeat constructor.
  - exists (list_cell "1101" 7), []. split; [done | discriminate].
  - exists (list_cell "1102" 3), []. split; [done | discriminate].
  - exists (list_cell "1103" 5), []. split; [done | discriminate].
Qed.

(** X18 on the field Plant, which has no value 1200. *)
Lemma findValueIndex_not_found_witness :
  findValueIndex {| ListObject.id := "obj0" |} "1200" plant_document
    = (Throws (not_found "1200"), plant_document).
Proof.
  exact (findValueIndex_not_found (SD := field_document)
           {| ListObject.id := "obj0" |} "1200" plant_document plant_document
           {| ListObject.qDataPages := field_values plant_document |}
           eq_refl plant_rows_without_1200).
Defined.

(** * Properties of the retry interceptor *)

Lemma handle_rejections_bound (aborted : ErrorCode) (errors : list JsError)
    (tries : option Z) (t : Z) :
  tries = Some t \/ (tries = None /\ t = 0) ->
  0 <= t ->
  Z.of_nat (fst (handle_rejections aborted tries errors)) <= Z.max 0 (3 - t).
Proof.
  revert tries t. induction errors as [|error later IH]; intros tries t Ht Hpos.
  - cbn. lia.
  - cbn [handle_rejections]. unfold retryAbortedError.
    destruct (code_eqb (code error) aborted); [|cbn; lia].
    assert (match tries with
            | Some n => if Z.eqb n 0 then 0 else n
            | None => 0
            end = t) as ->.
    { destruct Ht as [-> | [-> ->]]; [|done].
      destruct (Z.eqb_spec t 0); lia. }
    destruct (Z.leb_spec (t + 1) 3); [|cbn; lia].
    specialize (IH (Some (t + 1)) (t + 1) ltac:(by left) ltac:(lia)).
    destruct (handle_rejections aborted (Some (t + 1)) later) as [n passed].
    cbn [fst] in *. lia.
Qed.

(** X20: the interceptor grants a fresh request at most three retries,
    whatever the rejections are; a rejection with another code than the
    aborted one is passed on at once, with the error unchanged. *)
Theorem interceptor_grants_three_retries
    (aborted : ErrorCode) (errors : list JsError) :
  (fst (handle_rejections aborted None errors) <= 3)%nat /\
  (forall (tries : option Z) (error : JsError),
     code_eqb (code error) aborted = false ->
     retryAbortedError aborted tries error = (tries, Reject error)).
Proof.
  split.
  - pose proof (handle_rejections_bound aborted errors None 0
                  ltac:(by right) ltac:(lia)). lia.
  - intros tries error Hcode. unfold retryAbortedError. by rewrite Hcode.
Qed.

(** * Properties of the paging loop of the clean-pivot script *)

Section CleanPivotFacts.
Context {R : Type} {PO : PivotObject R}.
Variable hc : HyperCube.

Lemma clean_progress_step (s : CleanState R) :
  clean_progress hc s ->
  cleanLog s ++ [clean_window hc (currentPage s)] =
    map (clean_window hc) (seqZ 0 (currentPage s + 1)).
Proof.
  intros [Hpos ->]. rewrite seqZ_app by lia. rewrite map_app.
  f_equal.
Qed.

Lemma clean_while_ends (fuel : nat) (s : CleanState R) :
  clean_progress hc s ->
  currentPage s <= 100 ->
  101 <= Z.of_nat fuel + currentPage s ->
  let run := clean_while hc fuel s in
  (forall s', run <> CleanOutOfFuel s') /\
  (length (cleanLog (clean_state run)) <= 101)%nat /\
  cleanLog (clean_state run) =
    map (clean_window hc) (seqZ 0 (Z.of_nat (length (cleanLog (clean_state run))))).
Proof.
  revert s. induction fuel as [|fuel IH]; intros s Hprog Hpage Hfuel; [lia|].
  cbv zeta in IH |- *.
  pose proof (clean_progress_step s Hprog) as Hstep.
  destruct Hprog as [Hpos Hlog].
  assert (cleanLog s =
          map (clean_window hc) (seqZ 0 (Z.of_nat (length (cleanLog s)))) /\
          Z.of_nat (length (cleanLog s)) = currentPage s) as [Hself Hlen].
  { rewrite Hlog at 2 3. rewrite length_map, length_seqZ, Z2Nat.id by lia.
    split; [exact Hlog | reflexivity]. }
  cbn [clean_while].
  destruct (Z.ltb_spec (currentPage s * 100) (totalRows hc)) as [Hmore | Hdone].
  - cbv zeta.
    destruct (invoke GetHyperCubeData (clean_window hc (currentPage s))
                (cleanRemote s)) as [[dataPages|error] r1].
    + cbn [currentPage].
      destruct (Z.ltb_spec 100 (currentPage s + 1)) as [Hbreak | Hgo].
      * cbn [clean_state cleanLog]. split; [discriminate|].
        rewrite length_app. cbn [length].
        split; [lia|]. rewrite Hstep. do 2 f_equal. lia.
      * apply IH; cbn [currentPage cleanLog]; [|lia|lia].
        split; cbn [currentPage cleanLog]; [lia | exact Hstep].
    + cbn [clean_state cleanLog]. split; [discriminate|].
      rewrite length_app. cbn [length].
      split; [lia|]. rewrite Hstep. do 2 f_equal. lia.
  - cbn [clean_state]. split; [discriminate|]. split; [lia | exact Hself].
Qed.

End CleanPivotFacts.

(** X21: the paging loop of the clean-pivot script always ends within
    101 iterations, whatever the remote answers and however many rows
    the cube has: it issues at most 101 requests, and they are the
    hundred-row windows of the pages 0, 1, 2, ... in that order. *)
Theorem clean_pivot_loop_ends
    {R : Type} {PO : PivotObject R} (hc : HyperCube) (r : R) (fuel : nat) :
  let run := clean_while hc (101 + fuel) (clean_start r) in
  (forall s, run <> CleanOutOfFuel s) /\
  (length (cleanLog (clean_state run)) <= 101)%nat /\
  cleanLog (clean_state run) =
    map (clean_window hc) (seqZ 0 (Z.of_nat (length (cleanLog (clean_state run))))).
Proof.
  apply clean_while_ends; cbn [clean_start currentPage]; [|lia|lia].
  split; [cbn; lia | reflexivity].
Qed.

Section CleanPivotNoFaults.
Context {R : Type} {PO : PivotObject R}.
Variable hc : HyperCube.
Variable serving : R -> Prop.
Hypothesis fault_free :
  forall (w : NxPage) (r : R),
    serving r -> clean_page_window hc w ->
    serves_rows (invoke GetHyperCubeData w r) (qHeight w) /\
    serving (snd (invoke GetHyperCubeData w r)).

Lemma clean_while_full (fuel : nat) (s : CleanState R) :
  serving (cleanRemote s) ->
  0 <= currentPage s <= 100 ->
  101 <= Z.of_nat fuel + currentPage s ->
  Z.of_nat (length (cleanData s)) = Z.min (totalRows hc) (100 * currentPage s) ->
  exists s',
    clean_while hc fuel s = CleanFinished s' /\
    Z.of_nat (length (cleanData s')) = Z.min (totalRows hc) 10100.
Proof.
  revert s. induction fuel as [|fuel IH]; intros s Hs Hpage Hfuel Hlen; [lia|].
  cbn [clean_while].
  destruct (Z.ltb_spec (currentPage s * 100) (totalRows hc)) as [Hmore | Hdone].
  - cbv zeta.
    destruct (fault_free (clean_window hc (currentPage s)) (cleanRemote s) Hs)
      as [(pd & r1 & rows & Hinv & Hm & Hrows) Hs1].
    { unfold clean_page_window, clean_window.
      cbn [qHeight qTop qLeft qWidth]. lia. }
    rewrite Hinv in Hs1 |- *. cbn [snd] in Hs1. rewrite Hm.
    unfold clean_window in Hrows. cbn [qHeight] in Hrows.
    cbn [currentPage].
    destruct (Z.ltb_spec 100 (currentPage s + 1)) as [Hbreak | Hgo].
    + eexists. split; [reflexivity|]. cbn [cleanData].
      rewrite length_app. lia.
    + apply IH; cbn [cleanRemote currentPage cleanData]; [exact Hs1|lia|lia|].
      rewrite length_app. lia.
  - exists s. split; [reflexivity | lia].
Qed.

End CleanPivotNoFaults.

(** X22: against a remote that serves in full every window the loop can
    ask for (at most a hundred rows, ending inside the cube, through
    [getHyperCubeData]), the paging loop of the clean-pivot script
    collects [min totalRows 10100] rows: a cube of more than 10100 rows
    is cut off after page 101 without any fault. *)
Theorem clean_pivot_rows_capped
    {R : Type} {PO : PivotObject R} (serving : R -> Prop)
    (hc : HyperCube) (r : R) (fuel : nat) :
  (forall (w : NxPage) (r : R),
     serving r -> clean_page_window hc w ->
     serves_rows (invoke GetHyperCubeData w r) (qHeight w) /\
     serving (snd (invoke GetHyperCubeData w r))) ->
  serving r ->
  0 <= totalRows hc ->
  exists s,
    clean_while hc (101 + fuel) (clean_start r) = CleanFinished s /\
    Z.of_nat (length (cleanData s)) = Z.min (totalRows hc) 10100.
Proof.
  intros Hfree Hr Htotal.
  apply (clean_while_full hc serving Hfree);
    cbn [clean_start cleanRemote currentPage cleanData length]; [exact Hr|lia|lia|lia].
Qed.

(** X22 at a table of 250 rows whose server stops at the last row. *)
Lemma clean_pivot_rows_witness :
  exists s,
    clean_while (qHyperCube (cube 250 "EQ_DATA_MODE_STRAIGHT")) (101 + 0)
      (clean_start (clipped_table 250 "EQ_DATA_MODE_STRAIGHT")) = CleanFinished s /\
    Z.of_nat (length (cleanData s)) = 250.
Proof.
  apply (clean_pivot_rows_capped
           (fun r => answer r = answer (clipped_table 250 "EQ_DATA_MODE_STRAIGHT"))
           (qHyperCube (cube 250 "EQ_DATA_MODE_STRAIGHT"))
           (clipped_table 250 "EQ_DATA_MODE_STRAIGHT") 0%nat).
  - intros w r Hr (_ & _ & _ & Hh & Hin).
    apply clipped_table_serves; [exact Hr | lia | exact Hin].
  - reflexivity.
  - discriminate.
Defined.
